(** * Ampire AM-4001280ATZQW-00H MIPI-DSI panel driver: lifecycle model

    A shallow embedding of [panel-ampire-am4001280atzqw00h.c].  The driver is
    a set of C functions that read and write three run-time flags of
    [struct panel_driver_data] and call into the kernel (regulators, the
    reset GPIO, the DSI host, the backlight core, the clock).  Each driver
    function becomes a computation in a small state monad over

    - the fields of the driver data the functions touch,
    - the sequence of kernel calls issued so far, each with the value the
      kernel returned, and
    - the sequence of messages handed to [DRM_DEV_ERROR], [dev_err] and
      [dev_warn].

    What the kernel answers is not decided here: it is an arbitrary function
    [hw_reply] from the position of a call in the sequence to the returned
    [int], so every statement below holds for every behaviour of the
    hardware. *)

From Stdlib Require Import String ZArith List Bool Lia.
Import ListNotations.

Local Open Scope Z_scope.

(** ** Constants of the kernel headers

    These come from [include/drm/drm_mipi_dsi.h] and
    [include/video/mipi_display.h]; no statement below depends on the
    numbers chosen. *)

Definition MIPI_DSI_MODE_VIDEO : Z := Z.shiftl 1 0.
Definition MIPI_DSI_MODE_VIDEO_HSE : Z := Z.shiftl 1 4.
Definition MIPI_DSI_MODE_LPM : Z := Z.shiftl 1 11.
Definition MIPI_DCS_EXIT_IDLE_MODE : Z := 0x38.
Definition MIPI_DCS_ENTER_IDLE_MODE : Z := 0x39.
Definition NSEC_PER_MSEC : Z := 1000000.

(** ** Manufacturer command set *)

(** [struct cmd_set_entry]: a register address and its value, both [u8]. *)
Record cmd_set_entry : Type := mk_entry { cmd : Z; param : Z }.

Definition entries_of (l : list (Z * Z)) : list cmd_set_entry :=
  map (fun p => mk_entry (fst p) (snd p)) l.

Definition mcs_am40001280 : list cmd_set_entry := entries_of [
  (0xb0, 0x5a); (0xb1, 0x00); (0x89, 0x01); (0x91, 0x07);
  (0x92, 0xf9); (0xb1, 0x03); (0x2c, 0x28); (0x00, 0xb7);
  (0x01, 0x1b); (0x02, 0x00); (0x03, 0x00); (0x04, 0x00);
  (0x05, 0x00); (0x06, 0x00); (0x07, 0x00); (0x08, 0x00);
  (0x09, 0x00); (0x0a, 0x01); (0x0b, 0x01); (0x0c, 0x20);
  (0x0d, 0x00); (0x0e, 0x24); (0x0f, 0x1c); (0x10, 0xc9);
  (0x11, 0x60); (0x12, 0x70); (0x13, 0x01); (0x14, 0xe7);
  (0x15, 0xff); (0x16, 0x3d); (0x17, 0x0e); (0x18, 0x01);
  (0x19, 0x00); (0x1a, 0x00); (0x1b, 0xfc); (0x1c, 0x0b);
  (0x1d, 0xa0); (0x1e, 0x03); (0x1f, 0x04); (0x20, 0x0c);
  (0x21, 0x00); (0x22, 0x04); (0x23, 0x81); (0x24, 0x1f);
  (0x25, 0x10); (0x26, 0x9b); (0x2d, 0x01); (0x2e, 0x84);
  (0x2f, 0x00); (0x30, 0x02); (0x31, 0x08); (0x32, 0x01);
  (0x33, 0x1c); (0x34, 0x40); (0x35, 0xff); (0x36, 0xff);
  (0x37, 0xff); (0x38, 0xff); (0x39, 0xff); (0x3a, 0x05);
  (0x3b, 0x00); (0x3c, 0x00); (0x3d, 0x00); (0x3e, 0xcf);
  (0x3f, 0x84); (0x40, 0x28); (0x41, 0xfc); (0x42, 0x01);
  (0x43, 0x40); (0x44, 0x05); (0x45, 0xe8); (0x46, 0x16);
  (0x47, 0x00); (0x48, 0x00); (0x49, 0x88); (0x4a, 0x08);
  (0x4b, 0x05); (0x4c, 0x03); (0x4d, 0xd0); (0x4e, 0x13);
  (0x4f, 0xff); (0x50, 0x0a); (0x51, 0x53); (0x52, 0x26);
  (0x53, 0x22); (0x54, 0x09); (0x55, 0x22); (0x56, 0x00);
  (0x57, 0x1c); (0x58, 0x03); (0x59, 0x3f); (0x5a, 0x28);
  (0x5b, 0x01); (0x5c, 0xcc); (0x5d, 0x21); (0x5e, 0x84);
  (0x5f, 0x10); (0x60, 0x42); (0x61, 0x40); (0x62, 0x06);
  (0x63, 0x3a); (0x64, 0xa6); (0x65, 0x04); (0x66, 0x09);
  (0x67, 0x21); (0x68, 0x84); (0x69, 0x10); (0x6a, 0x42);
  (0x6b, 0x08); (0x6c, 0x21); (0x6d, 0x84); (0x6e, 0x74);
  (0x6f, 0xe2); (0x70, 0x6b); (0x71, 0x6b); (0x72, 0x94);
  (0x73, 0x10); (0x74, 0x42); (0x75, 0x08); (0x76, 0x00);
  (0x77, 0x00); (0x78, 0x0f); (0x79, 0xe0); (0x7a, 0x01);
  (0x7b, 0xff); (0x7c, 0xff); (0x7d, 0x0f); (0x7e, 0x41);
  (0x7f, 0xfe); (0xb1, 0x02); (0x00, 0xff); (0x01, 0x05);
  (0x02, 0xc8); (0x03, 0x00); (0x04, 0x14); (0x05, 0x4b);
  (0x06, 0x64); (0x07, 0x0a); (0x08, 0xc0); (0x09, 0x00);
  (0x0a, 0x00); (0x0b, 0x10); (0x0c, 0xe6); (0x0d, 0x0d);
  (0x0f, 0x00); (0x10, 0x3d); (0x11, 0x4c); (0x12, 0xcf);
  (0x13, 0xad); (0x14, 0x4a); (0x15, 0x92); (0x16, 0x24);
  (0x17, 0x55); (0x18, 0x73); (0x19, 0xe9); (0x1a, 0x70);
  (0x1b, 0x0e); (0x1c, 0xff); (0x1d, 0xff); (0x1e, 0xff);
  (0x1f, 0xff); (0x20, 0xff); (0x21, 0xff); (0x22, 0xff);
  (0x23, 0xff); (0x24, 0xff); (0x25, 0xff); (0x26, 0xff);
  (0x27, 0x1f); (0x28, 0xff); (0x29, 0xff); (0x2a, 0xff);
  (0x2b, 0xff); (0x2c, 0xff); (0x2d, 0x07); (0x33, 0x3f);
  (0x35, 0x7f); (0x36, 0x3f); (0x38, 0xff); (0x3a, 0x80);
  (0x3b, 0x01); (0x3c, 0x80); (0x3d, 0x2c); (0x3e, 0x00);
  (0x3f, 0x90); (0x40, 0x05); (0x41, 0x00); (0x42, 0xb2);
  (0x43, 0x00); (0x44, 0x40); (0x45, 0x06); (0x46, 0x00);
  (0x47, 0x00); (0x48, 0x9b); (0x49, 0xd2); (0x4a, 0x21);
  (0x4b, 0x43); (0x4c, 0x16); (0x4d, 0xc0); (0x4e, 0x0f);
  (0x4f, 0xf1); (0x50, 0x78); (0x51, 0x7a); (0x52, 0x34);
  (0x53, 0x99); (0x54, 0xa2); (0x55, 0x02); (0x56, 0x14);
  (0x57, 0xb8); (0x58, 0xdc); (0x59, 0xd4); (0x5a, 0xef);
  (0x5b, 0xf7); (0x5c, 0xfb); (0x5d, 0xfd); (0x5e, 0x7e);
  (0x5f, 0xbf); (0x60, 0xef); (0x61, 0xe6); (0x62, 0x76);
  (0x63, 0x73); (0x64, 0xbb); (0x65, 0xdd); (0x66, 0x6e);
  (0x67, 0x37); (0x68, 0x8c); (0x69, 0x08); (0x6a, 0x31);
  (0x6b, 0xb8); (0x6c, 0xb8); (0x6d, 0xb8); (0x6e, 0xb8);
  (0x6f, 0xb8); (0x70, 0x5c); (0x71, 0x2e); (0x72, 0x17);
  (0x73, 0x00); (0x74, 0x00); (0x75, 0x00); (0x76, 0x00);
  (0x77, 0x00); (0x78, 0x00); (0x79, 0x00); (0x7a, 0xdc);
  (0x7b, 0xdc); (0x7c, 0xdc); (0x7d, 0xdc); (0x7e, 0xdc);
  (0x7f, 0x6e); (0x0b, 0x00); (0xb1, 0x03); (0x2c, 0x2c);
  (0xb1, 0x00); (0x89, 0x03)
].

(** ** Calls into the kernel *)

(** One constructor per kernel function the driver calls, with the arguments
    that the driver chooses.  [gpiod_set_value_cansleep] carries whether the
    descriptor passed is a real one ([true]) or [NULL] ([false]): the reset
    GPIO is optional. *)
Inductive hw_call : Type :=
| regulator_bulk_enable
| regulator_bulk_disable
| gpiod_set_value_cansleep (pin : bool) (value : Z)
| usleep_range (lo hi : Z)
| msleep (msecs : Z)
| ktime_get
| mipi_dsi_dcs_soft_reset
| mipi_dsi_dcs_enter_sleep_mode
| mipi_dsi_dcs_exit_sleep_mode
| mipi_dsi_dcs_set_display_off
| mipi_dsi_dcs_set_display_on
| mipi_dsi_generic_write (payload : list Z)
| mipi_dsi_dcs_write (dcs_cmd : Z) (payload : list Z)
| mipi_dsi_dcs_set_display_brightness (level : Z)
| backlight_enable
| backlight_disable.

(** A call together with the value it returned ([0] for [void] calls). *)
Record hw_event : Type := Ev { ev_call : hw_call; ev_ret : Z }.

(** The calls that put a packet on the DSI command bus. *)
Definition is_bus_call (c : hw_call) : bool :=
  match c with
  | mipi_dsi_dcs_soft_reset
  | mipi_dsi_dcs_enter_sleep_mode
  | mipi_dsi_dcs_exit_sleep_mode
  | mipi_dsi_dcs_set_display_off
  | mipi_dsi_dcs_set_display_on
  | mipi_dsi_generic_write _
  | mipi_dsi_dcs_write _ _
  | mipi_dsi_dcs_set_display_brightness _ => true
  | _ => false
  end.

(** ** Driver data *)

(** The fields of [struct panel_driver_data] (and of the [dsi] and [bl_dev]
    objects it points to) that the lifecycle functions read or write. *)
Record panel_driver_data : Type := mk_drv {
  reset_pin : bool;          (* drv_data->reset_pin != NULL *)
  mode_flags : Z;            (* drv_data->dsi->mode_flags *)
  brightness : Z;            (* drv_data->bl_dev->props.brightness *)
  prepared : bool;
  enabled : bool;
  suspended : bool
}.

Definition set_mode_flags (f : Z) (d : panel_driver_data) : panel_driver_data :=
  mk_drv (reset_pin d) f (brightness d) (prepared d) (enabled d) (suspended d).
Definition set_brightness_prop (b : Z) (d : panel_driver_data) : panel_driver_data :=
  mk_drv (reset_pin d) (mode_flags d) b (prepared d) (enabled d) (suspended d).
Definition set_prepared (b : bool) (d : panel_driver_data) : panel_driver_data :=
  mk_drv (reset_pin d) (mode_flags d) (brightness d) b (enabled d) (suspended d).
Definition set_enabled (b : bool) (d : panel_driver_data) : panel_driver_data :=
  mk_drv (reset_pin d) (mode_flags d) (brightness d) (prepared d) b (suspended d).

(** The three run-time flags, as one value. *)
Definition lifecycle (d : panel_driver_data) : bool * bool * bool :=
  (prepared d, enabled d, suspended d).

(** The state a driver function runs in. *)
Record machine : Type := mk_machine {
  drv : panel_driver_data;
  trace : list hw_event;
  dmesg : list string
}.

(** The driver data as [am4001280atzqw00h_probe] leaves it: allocated with
    [devm_kzalloc], so the three flags are clear; the backlight is
    registered with brightness 200. *)
Definition probed (has_reset : bool) : machine :=
  mk_machine
    (mk_drv has_reset (Z.lor MIPI_DSI_MODE_VIDEO_HSE MIPI_DSI_MODE_VIDEO) 200
            false false false)
    [] [].

(** ** The monad *)

Definition M (A : Type) : Type := machine -> A * machine.

Definition ret {A} (a : A) : M A := fun m => (a, m).

Definition bind {A B} (c : M A) (k : A -> M B) : M B :=
  fun m => let (a, m') := c m in k a m'.

Declare Scope drv_scope.
Delimit Scope drv_scope with drv.
Notation "x <- c ;; k" := (bind c (fun x => k))
  (at level 61, c at next level, right associativity) : drv_scope.
Notation "c ;; k" := (bind c (fun _ => k))
  (at level 61, right associativity) : drv_scope.
Local Open Scope drv_scope.

Definition get_drv : M panel_driver_data := fun m => (drv m, m).

Definition modify_drv (f : panel_driver_data -> panel_driver_data) : M unit :=
  fun m => (tt, mk_machine (f (drv m)) (trace m) (dmesg m)).

(** [DRM_DEV_ERROR], [dev_err] and [dev_warn]: the message, without its
    trailing error-code format. *)
Definition dev_log (msg : string) : M unit :=
  fun m => (tt, mk_machine (drv m) (trace m) (dmesg m ++ [msg])).

(** ** Kernel time

    The helpers of [include/linux/ktime.h] that the driver uses. *)

(** [ktime_t] is a signed 64-bit count of nanoseconds. *)
Definition s64 (z : Z) : Z := (z + 2 ^ 63) mod 2 ^ 64 - 2 ^ 63.
(** [unsigned int], the parameter type of [msleep]. *)
Definition u32 (z : Z) : Z := z mod 2 ^ 32.

Definition ms_to_ktime (ms : Z) : Z := s64 (ms * NSEC_PER_MSEC).
Definition ktime_add (a b : Z) : Z := s64 (a + b).
Definition ktime_sub (a b : Z) : Z := s64 (a - b).
Definition ktime_before (a b : Z) : bool := a <? b.
Definition ktime_to_ms (kt : Z) : Z := Z.quot kt NSEC_PER_MSEC.

Section Driver.

(** [hw_reply n] is what the kernel returns from call number [n], counting
    from 0 over all calls the driver makes. *)
Variable hw_reply : nat -> Z.

(** A call whose result the driver reads. *)
Definition hw (c : hw_call) : M Z :=
  fun m =>
    let r := hw_reply (length (trace m)) in
    (r, mk_machine (drv m) (trace m ++ [Ev c r]) (dmesg m)).

(** A call that returns nothing, or whose result the driver drops. *)
Definition hw_void (c : hw_call) : M unit :=
  fun m => (tt, mk_machine (drv m) (trace m ++ [Ev c 0]) (dmesg m)).

(** *** [push_cmd_list] *)

Fixpoint push_cmd_list (cmd_set : list cmd_set_entry) : M Z :=
  match cmd_set with
  | [] => ret 0
  | entry :: rest =>
      r <- hw (mipi_dsi_generic_write [cmd entry; param entry]) ;;
      if r <? 0 then ret r else push_cmd_list rest
  end.

(** *** DRM panel functions *)

Definition am4001280atzqw00h_prepare : M Z :=
  d <- get_drv ;;
  if prepared d then
    dev_log "Got call to prepare despite already being prepared" ;;
    ret 1
  else
    r <- hw regulator_bulk_enable ;;
    if r <? 0 then
      dev_log "Failed to enable voltage/current regulators while preparing" ;;
      ret r
    else
      (* At least 10ms needed between power-on and reset-out *)
      hw_void (usleep_range 10000 12000) ;;
      (if reset_pin d then
         hw_void (gpiod_set_value_cansleep (reset_pin d) 0) ;;
         (* 50ms delay after reset-out *)
         hw_void (msleep 50)
       else ret tt) ;;
      ret 0.

Definition am4001280atzqw00h_unprepare : M Z :=
  d <- get_drv ;;
  if prepared d then
    dev_log "Got call to unprepare despite already not being prepared" ;;
    ret 1
  else
    (if reset_pin d then
       hw_void (gpiod_set_value_cansleep (reset_pin d) 1) ;;
       hw_void (usleep_range 15000 17000) ;;
       hw_void (gpiod_set_value_cansleep (reset_pin d) 0)
     else ret tt) ;;
    r <- hw regulator_bulk_disable ;;
    if r <? 0 then
      dev_log "Failed to disable voltage/current regulators while unpreparing" ;;
      ret r
    else
      modify_drv (set_prepared false) ;;
      ret 0.

Definition am4001280atzqw00h_suspend : M Z :=
  d <- get_drv ;;
  if suspended d then
    dev_log "Got call to suspend despite already being suspended" ;;
    ret 1
  else
    r <- hw mipi_dsi_dcs_enter_sleep_mode ;;
    if r <? 0 then
      dev_log "Failed to enter sleep mode" ;;
      ret r
    else ret 0.

Definition am4001280atzqw00h_resume : M Z :=
  d <- get_drv ;;
  if negb (suspended d) then
    dev_log "Got call to resume despite not being suspended" ;;
    ret 1
  else
    r <- hw mipi_dsi_dcs_exit_sleep_mode ;;
    if r <? 0 then
      dev_log "Failed to exit sleep mode" ;;
      ret r
    else ret 0.

(** The [fail:] label of [am4001280atzqw00h_platform_enable]. *)
Definition enable_fail (r : Z) : M Z :=
  d <- get_drv ;;
  hw_void (gpiod_set_value_cansleep (reset_pin d) 1) ;;
  ret r.

(** [am4001280atzqw00h_enable] only forwards to this function through
    [drv_data->pl_data->enable].  The debug line about the colour format is
    not modelled. *)
Definition am4001280atzqw00h_platform_enable : M Z :=
  d <- get_drv ;;
  if enabled d then
    dev_log "Got call to enable despite already being enabled" ;;
    ret 1
  else
    r <- hw mipi_dsi_dcs_soft_reset ;;
    if r <? 0 then
      dev_log "Failed to perform software reset" ;;
      enable_fail r
    else
      (* Raise low power mode flag *)
      modify_drv (fun d => set_mode_flags (Z.lor (mode_flags d) MIPI_DSI_MODE_LPM) d) ;;
      r <- am4001280atzqw00h_suspend ;;
      if r <? 0 then
        dev_log "Failed to enter sleep mode while enabling" ;;
        enable_fail r
      else
        r <- hw mipi_dsi_dcs_set_display_off ;;
        if r <? 0 then
          dev_log "Failed to set display off while enabling" ;;
          enable_fail r
        else
          r <- push_cmd_list mcs_am40001280 ;;
          if r <? 0 then
            dev_log "Failed to send MCS while enabling" ;;
            enable_fail r
          else
            r <- am4001280atzqw00h_resume ;;
            if r <? 0 then
              dev_log "Failed to exit sleep mode while enabling" ;;
              enable_fail r
            else
              hw_void (usleep_range 5000 7000) ;;
              r <- hw mipi_dsi_dcs_set_display_on ;;
              if r <? 0 then
                dev_log "Failed to set display to on while enabling" ;;
                enable_fail r
              else
                hw_void backlight_enable ;;
                modify_drv (set_enabled true) ;;
                ret 0.

Definition am4001280atzqw00h_enable : M Z := am4001280atzqw00h_platform_enable.

Definition am4001280atzqw00h_disable : M Z :=
  d <- get_drv ;;
  if enabled d then
    dev_log "Got call to disable despite not being enabled" ;;
    ret 1
  else
    r <- hw backlight_disable ;;
    if r <? 0 then
      dev_log "Failed to disable backlight" ;;
      ret r
    else
      hw_void (usleep_range 10000 12000) ;;
      (* Switch to HP mode to send the command more quickly *)
      modify_drv (fun d => set_mode_flags
                             (Z.land (mode_flags d) (Z.lnot MIPI_DSI_MODE_LPM)) d) ;;
      r <- hw mipi_dsi_dcs_set_display_off ;;
      if r <? 0 then
        dev_log "Failed to set display to OFF while disabling" ;;
        ret r
      else
        r <- am4001280atzqw00h_suspend ;;
        if r <? 0 then
          dev_log "Failed to enter sleep mode while disabling" ;;
          (* fail: *)
          modify_drv (fun d => set_mode_flags (Z.lor (mode_flags d) MIPI_DSI_MODE_LPM) d) ;;
          ret r
        else
          (* Switch back to LP mode *)
          modify_drv (fun d => set_mode_flags (Z.lor (mode_flags d) MIPI_DSI_MODE_LPM) d) ;;
          modify_drv (set_enabled false) ;;
          ret 0.

(** *** [am4001280atzqw00h_wait] *)

Definition am4001280atzqw00h_wait (start_ktime min_ms : Z) : M Z :=
  if min_ms =? 0 then
    dev_log "Got invalid waiting time" ;;
    ret 1
  else
    let min_ktime := ktime_add start_ktime (ms_to_ktime min_ms) in
    now_ktime <- hw ktime_get ;;
    r <- hw (mipi_dsi_dcs_write MIPI_DCS_ENTER_IDLE_MODE []) ;;
    if r <? 0 then
      dev_log "Failed to enter idle mode while waiting" ;;
      ret r
    else
      (if ktime_before now_ktime min_ktime then
         hw_void (msleep (u32 (ktime_to_ms (ktime_sub min_ktime now_ktime) + 1)))
       else ret tt) ;;
      r <- hw (mipi_dsi_dcs_write MIPI_DCS_EXIT_IDLE_MODE []) ;;
      if r <? 0 then
        dev_log "Failed to exit idle mode while waiting" ;;
        ret r
      else ret 0.

(** *** Backlight *)

Definition am4001280atzqw00h_backlight_update_status : M Z :=
  d <- get_drv ;;
  if negb (prepared d) then
    dev_log "Tried to update backlight status despite not being prepared." ;;
    ret 0
  else
    r <- hw (mipi_dsi_dcs_set_display_brightness (brightness d)) ;;
    if r <? 0 then
      dev_log "Failed to set backlight brightness while updating the backlight." ;;
      ret r
    else ret 0.

(** How the backlight core sets a level: it stores the level in
    [props.brightness] and calls the driver's [update_status]. *)
Definition backlight_set_brightness (level : Z) : M Z :=
  modify_drv (set_brightness_prop level) ;;
  am4001280atzqw00h_backlight_update_status.

(** *** Sequences of lifecycle calls *)

Inductive lifecycle_op : Type :=
| Prepare | Enable | Disable | Unprepare | Suspend | Resume.

Definition run_op (op : lifecycle_op) : M Z :=
  match op with
  | Prepare => am4001280atzqw00h_prepare
  | Enable => am4001280atzqw00h_enable
  | Disable => am4001280atzqw00h_disable
  | Unprepare => am4001280atzqw00h_unprepare
  | Suspend => am4001280atzqw00h_suspend
  | Resume => am4001280atzqw00h_resume
  end.

(** Runs the calls in order and collects what each returned. *)
Fixpoint run_ops (ops : list lifecycle_op) : M (list Z) :=
  match ops with
  | [] => ret []
  | op :: rest =>
      r <- run_op op ;;
      rs <- run_ops rest ;;
      ret (r :: rs)
  end.

End Driver.

(** * Observing runs *)

(** The events a run appended to the trace. *)
Definition issued (before after : machine) : list hw_event :=
  skipn (length (trace before)) (trace after).

(** No bus call in [t] returned an error. *)
Definition bus_ok (t : list hw_event) : Prop :=
  Forall (fun e => is_bus_call (ev_call e) = true -> 0 <= ev_ret e) t.

(** [t] ends with a bus call that returned [r], followed by the event [g],
    and no bus call before it failed. *)
Definition ends_in_rollback (r : Z) (g : hw_event) (t : list hw_event) : Prop :=
  exists pre c,
    t = pre ++ [Ev c r; g] /\ is_bus_call c = true /\ bus_ok pre.

(** The write of one entry as call number [n]: a generic write whose
    payload is the two bytes of the entry. *)
Definition write_event (hw_reply : nat -> Z) (n : nat) (e : cmd_set_entry)
  : hw_event :=
  Ev (mipi_dsi_generic_write [cmd e; param e]) (hw_reply n).

(** The writes of [l], in order, as calls number [base], [base + 1], ... *)
Fixpoint write_events (hw_reply : nat -> Z) (base : nat) (l : list cmd_set_entry)
  : list hw_event :=
  match l with
  | [] => []
  | e :: l' => write_event hw_reply base e :: write_events hw_reply (S base) l'
  end.

(** ** Kernels and panels used as examples *)

(** A kernel that answers 0 to every call but number [k], where it answers
    [err]. *)
Definition fails_at (k : nat) (err : Z) : nat -> Z :=
  fun n => if Nat.eqb n k then err else 0.

Definition all_succeed : nat -> Z := fun _ => 0.

Definition two_entries : list cmd_set_entry := firstn 2 mcs_am40001280.

(** A kernel whose first call (the clock) returns [now] and whose other
    calls return 0. *)
Definition clock_at (now : Z) : nat -> Z :=
  fun n => match n with O => now | S _ => 0 end.


(** A panel whose prepared flag is set. *)
Definition prepared_panel : machine :=
  mk_machine (set_prepared true (drv (probed true))) [] [].

(** A panel whose suspended flag is set. *)
Definition suspended_panel : machine :=
  mk_machine
    (mk_drv true (Z.lor MIPI_DSI_MODE_VIDEO_HSE MIPI_DSI_MODE_VIDEO) 200
            false false true)
    [] [].

(** What a run of Enable returned, and the last two calls it made. *)
Definition enable_ending (hw_reply : nat -> Z) (m : machine)
  : Z * list hw_call :=
  let (r, m') := am4001280atzqw00h_enable hw_reply m in
  (r, map ev_call (skipn (length (trace m') - 2) (trace m'))).

(** The panel after an Enable during which every call succeeded. *)
Definition enabled_panel : machine :=
  snd (am4001280atzqw00h_enable all_succeed (probed true)).

(** The panel after a Prepare and an Enable during which every call
    succeeded. *)
Definition ready_panel : machine :=
  snd (run_ops all_succeed [Prepare; Enable] (probed true)).

Definition is_exit_sleep (e : hw_event) : bool :=
  match ev_call e with
  | mipi_dsi_dcs_exit_sleep_mode => true
  | _ => false
  end.

(** * The rest of the driver *)

(** ** Shutdown *)

(** [am4001280atzqw00h_shutdown]: Disable, then Unprepare, each failure
    logged and otherwise ignored. *)
Definition am4001280atzqw00h_shutdown (hw_reply : nat -> Z) : M unit :=
  err <- am4001280atzqw00h_disable hw_reply ;;
  (if err <? 0 then dev_log "Failed to disable panel during shutdown" else ret tt) ;;
  err <- am4001280atzqw00h_unprepare hw_reply ;;
  (if err <? 0 then dev_log "Failed to unprepare panel during shutdown" else ret tt).

(** ** Disable with the backlight core inlined *)

(** [backlight_disable] of [include/linux/backlight.h] is an inline
    function: it sets the power state in the backlight properties, which
    this driver never reads, and returns [backlight_update_status], which
    calls the [update_status] of the device's operations.  For the device
    that probe registers with [am4001280atzqw00h_backlight_ops] that is the
    driver's own [am4001280atzqw00h_backlight_update_status]. *)
Definition backlight_disable_inline (hw_reply : nat -> Z) : M Z :=
  am4001280atzqw00h_backlight_update_status hw_reply.

(** [am4001280atzqw00h_disable] with that inline function expanded instead
    of taken as one call with a result of its own. *)
Definition am4001280atzqw00h_disable_inlined (hw_reply : nat -> Z) : M Z :=
  d <- get_drv ;;
  if enabled d then
    dev_log "Got call to disable despite not being enabled" ;;
    ret 1
  else
    r <- backlight_disable_inline hw_reply ;;
    if r <? 0 then
      dev_log "Failed to disable backlight" ;;
      ret r
    else
      hw_void (usleep_range 10000 12000) ;;
      (* Switch to HP mode to send the command more quickly *)
      modify_drv (fun d => set_mode_flags
                             (Z.land (mode_flags d) (Z.lnot MIPI_DSI_MODE_LPM)) d) ;;
      r <- hw hw_reply mipi_dsi_dcs_set_display_off ;;
      if r <? 0 then
        dev_log "Failed to set display to OFF while disabling" ;;
        ret r
      else
        r <- am4001280atzqw00h_suspend hw_reply ;;
        if r <? 0 then
          dev_log "Failed to enter sleep mode while disabling" ;;
          (* fail: *)
          modify_drv (fun d => set_mode_flags (Z.lor (mode_flags d) MIPI_DSI_MODE_LPM) d) ;;
          ret r
        else
          (* Switch back to LP mode *)
          modify_drv (fun d => set_mode_flags (Z.lor (mode_flags d) MIPI_DSI_MODE_LPM) d) ;;
          modify_drv (set_enabled false) ;;
          ret 0.

(** ** More observations on runs *)

Definition is_generic_write (e : hw_event) : bool :=
  match ev_call e with
  | mipi_dsi_generic_write _ => true
  | _ => false
  end.

(** The call that writes one entry of the command set. *)
Definition write_call (e : cmd_set_entry) : hw_call :=
  mipi_dsi_generic_write [cmd e; param e].

(** The levels the driver put on the reset GPIO, in order; a call with a
    [NULL] descriptor drives nothing. *)
Fixpoint gpio_levels (t : list hw_event) : list Z :=
  match t with
  | [] => []
  | e :: t' =>
      match ev_call e with
      | gpiod_set_value_cansleep true v => v :: gpio_levels t'
      | _ => gpio_levels t'
      end
  end.

(** The calls to the regulators and to the reset GPIO. *)
Definition is_regulator_call (e : hw_event) : bool :=
  match ev_call e with
  | regulator_bulk_enable | regulator_bulk_disable => true
  | _ => false
  end.

Definition is_gpio_call (e : hw_event) : bool :=
  match ev_call e with
  | gpiod_set_value_cansleep _ _ => true
  | _ => false
  end.

(** The calls that stay off the DSI bus. *)
Definition off_bus (t : list hw_event) : Prop :=
  Forall (fun e => is_bus_call (ev_call e) = false) t.

(** The fields of the driver data other than the enabled flag and the bus
    mode flags. *)
Definition other_fields (d : panel_driver_data) : bool * Z * bool * bool :=
  (reset_pin d, brightness d, prepared d, suspended d).

(** Whether [dsi->mode_flags] has [MIPI_DSI_MODE_LPM]. *)
Definition low_power (d : panel_driver_data) : bool :=
  negb (Z.land (mode_flags d) MIPI_DSI_MODE_LPM =? 0).

(** ** Reading the brightness back *)

(** What [mipi_dsi_dcs_get_display_brightness] does when it is called: the
    value it returns and the [u16] it stores through its pointer argument. *)
Record brightness_reply : Type := mk_reply { rd_ret : Z; rd_value : Z }.

Definition u16 (z : Z) : Z := z mod 2 ^ 16.

(** What one call of the readback did. *)
Record readback : Type := mk_readback {
  rb_ret : Z;                    (* the value returned *)
  rb_drv : panel_driver_data;    (* the driver data afterwards *)
  rb_bus_reads : nat;            (* how often the bus was asked *)
  rb_dmesg : list string         (* what was logged *)
}.

(** [am4001280atzqw00h_get_backlight_brightness], given what the bus would
    answer. *)
Definition am4001280atzqw00h_get_backlight_brightness
    (bus : brightness_reply) (d : panel_driver_data) : readback :=
  if negb (prepared d) then
    mk_readback 0 d 0
      ["Tried to get backlight brightness despite not being prepared."%string]
  else
    let ret := rd_ret bus in
    let brightness := u16 (rd_value bus) in
    if ret <? 0 then
      mk_readback ret d 1 ["Failed to get backlight brightness."%string]
    else
      mk_readback (Z.land brightness 0xff) (set_brightness_prop brightness d) 1 [].

(** ** Probe *)

Module Setup.

(** From [include/uapi/asm-generic/errno-base.h] and [drm_mipi_dsi.h]. *)
Definition ENOMEM : Z := 12.
Definition ENODEV : Z := 19.
Definition MIPI_DSI_MODE_VIDEO_BURST : Z := Z.shiftl 1 1.
Definition MIPI_DSI_MODE_VIDEO_SYNC_PULSE : Z := Z.shiftl 1 2.
Definition MIPI_DSI_FMT_RGB888 : Z := 0.

(** The kernel functions that probe calls. *)
Inductive setup_call : Type :=
| of_match_device
| devm_kzalloc
| of_property_read_u32 (name : string)
| devm_gpiod_get_optional (name : string)
| gpiod_set_value_cansleep (pin : bool) (value : Z)
| devm_backlight_device_register (brightness max_brightness : Z)
| devm_kcalloc (n : Z)
| devm_regulator_bulk_get (supplies : list string)
| drm_panel_init
| drm_panel_add
| mipi_dsi_attach
| drm_panel_remove.

(** What [devm_gpiod_get_optional] returns: an error pointer, [NULL] when
    the device tree names no reset GPIO, or a descriptor. *)
Inductive gpiod_lookup : Type :=
| gpiod_error (err : Z)
| gpiod_none
| gpiod_found.

(** What the kernel answers to the calls of probe.  Probe is straight-line
    code, so every call is made at most once. *)
Record probe_env : Type := mk_env {
  of_match_has_data : bool;        (* of_id && of_id->data *)
  kzalloc_ok : bool;
  video_mode_read : Z * Z;         (* return value, value stored *)
  dsi_lanes_read : Z * Z;
  reset_gpio : gpiod_lookup;
  backlight_error : option Z;      (* [Some e]: ERR_PTR(e) came back *)
  kcalloc_ok : bool;
  regulator_bulk_get : Z;
  panel_add : Z;
  dsi_attach : Z
}.

(** What a successful probe has set up. *)
Record probed_device : Type := mk_device {
  pd_drv : panel_driver_data;
  pd_format : Z;                   (* dsi->format *)
  pd_lanes : Z;                    (* dsi->lanes *)
  pd_supplies : list string        (* drv_data->supplies[i].supply *)
}.

Record probe_result : Type := mk_result {
  pr_ret : Z;
  pr_dev : option probed_device;   (* [Some] exactly on the success path *)
  pr_calls : list setup_call;
  pr_dmesg : list string
}.

Definition am4001280atzqw00h_supply_names : list string := ["v3p3"%string].

(** The switch on the "video-mode" property: the mode flags and what is
    logged. *)
Definition video_mode_flags (read : Z * Z) (flags : Z) : Z * list string :=
  if fst read =? 0 then
    let video_mode := u32 (snd read) in
    if video_mode =? 0 then (Z.lor flags MIPI_DSI_MODE_VIDEO_BURST, [])
    else if video_mode =? 1 then (flags, [])
    else if video_mode =? 2 then (Z.lor flags MIPI_DSI_MODE_VIDEO_SYNC_PULSE, [])
    else (flags, ["Got invalid video mode during probe"%string])
  else (flags, []).

Definition am4001280atzqw00h_probe (env : probe_env) : probe_result :=
  let c := [of_match_device] in
  if negb (of_match_has_data env) then mk_result (- ENODEV) None c []
  else
  let c := c ++ [devm_kzalloc] in
  if negb (kzalloc_ok env) then mk_result (- ENOMEM) None c []
  else
  let format := MIPI_DSI_FMT_RGB888 in
  let flags := Z.lor MIPI_DSI_MODE_VIDEO_HSE MIPI_DSI_MODE_VIDEO in
  let c := c ++ [of_property_read_u32 "video-mode"] in
  let (flags, log) := video_mode_flags (video_mode_read env) flags in
  let c := c ++ [of_property_read_u32 "dsi-lanes"] in
  let ret := fst (dsi_lanes_read env) in
  if ret <? 0 then
    mk_result ret None c
      (log ++ ["Failed to get the number of dsi-lanes during probe"%string])
  else
  let lanes := u32 (snd (dsi_lanes_read env)) in
  let c := c ++ [devm_gpiod_get_optional "reset"] in
  match reset_gpio env with
  | gpiod_error err =>
      mk_result err None c (log ++ ["Failed get reset pin during probe"%string])
  | pin =>
  let has_reset := match pin with gpiod_found => true | _ => false end in
  let c := c ++ [gpiod_set_value_cansleep has_reset 1] in
  let c := c ++ [devm_backlight_device_register 200 255] in
  match backlight_error env with
  | Some err =>
      mk_result err None c
        (log ++ ["Failed register backlight during probe"%string])
  | None =>
  let c := c ++ [devm_kcalloc 1] in
  if negb (kcalloc_ok env) then mk_result (- ENOMEM) None c log
  else
  (* the result of the regulator lookup is overwritten before it is read *)
  let c := c ++ [devm_regulator_bulk_get am4001280atzqw00h_supply_names] in
  let c := c ++ [drm_panel_init; drm_panel_add] in
  let ret := panel_add env in
  if ret <? 0 then
    mk_result ret None c (log ++ ["Failed to add panel during probe"%string])
  else
  let c := c ++ [mipi_dsi_attach] in
  let ret := dsi_attach env in
  if ret <? 0 then
    mk_result ret None (c ++ [drm_panel_remove])
      (log ++ ["Failed to attach panel during probe"%string])
  else
    mk_result 0
      (Some (mk_device (mk_drv has_reset flags 200 false false false)
                       format lanes am4001280atzqw00h_supply_names))
      c log
  end
  end.

(** Error pointers carry an errno between -4095 and -1. *)
Definition is_errno (e : Z) : Prop := - 4095 <= e < 0.

Definition env_well_formed (env : probe_env) : Prop :=
  (forall e, reset_gpio env = gpiod_error e -> is_errno e) /\
  (forall e, backlight_error env = Some e -> is_errno e).

(** Every call of probe succeeds. *)
Definition probe_passes (env : probe_env) : Prop :=
  of_match_has_data env = true /\
  kzalloc_ok env = true /\
  0 <= fst (dsi_lanes_read env) /\
  (forall e, reset_gpio env <> gpiod_error e) /\
  backlight_error env = None /\
  kcalloc_ok env = true /\
  0 <= panel_add env /\
  0 <= dsi_attach env.

(** The calls of [t] that drive a GPIO. *)
Definition gpio_calls (t : list setup_call) : list setup_call :=
  filter (fun c => match c with gpiod_set_value_cansleep _ _ => true | _ => false end) t.

Definition has_reset_gpio (env : probe_env) : bool :=
  match reset_gpio env with gpiod_found => true | _ => false end.

(** The device that probe hands out for [plain_env] below. *)
Definition plain_device : probed_device :=
  mk_device (drv (probed true)) MIPI_DSI_FMT_RGB888 2 am4001280atzqw00h_supply_names.

(** A device tree with two lanes, no "video-mode" property and a reset
    GPIO, on a kernel where every call succeeds. *)
Definition plain_env : probe_env :=
  mk_env true true (-22, 0) (0, 2) gpiod_found None true 0 0 0.

End Setup.

(** ** The display mode *)

Module Modes.

(** From [include/uapi/drm/drm_mode.h], [include/drm/drm_modes.h],
    [include/drm/drm_connector.h] and
    [include/uapi/linux/media-bus-format.h]. *)
Definition DRM_MODE_FLAG_NHSYNC : Z := Z.shiftl 1 1.
Definition DRM_MODE_FLAG_NVSYNC : Z := Z.shiftl 1 3.
Definition DRM_MODE_FLAG_INTERLACE : Z := Z.shiftl 1 4.
Definition DRM_MODE_TYPE_PREFERRED : Z := Z.shiftl 1 3.
Definition DRM_MODE_TYPE_DRIVER : Z := Z.shiftl 1 6.
Definition DRM_BUS_FLAG_DE_LOW : Z := Z.shiftl 1 0.
Definition DRM_BUS_FLAG_PIXDATA_DRIVE_NEGEDGE : Z := Z.shiftl 1 3.
Definition MEDIA_BUS_FMT_RGB666_1X18 : Z := 0x1009.
Definition MEDIA_BUS_FMT_RGB888_1X24 : Z := 0x100a.
Definition MEDIA_BUS_FMT_RGB565_1X16 : Z := 0x1017.

(** The fields of [struct drm_display_mode] the driver sets.  The name that
    [drm_mode_set_name] prints is kept as what it is printed from: the
    active width and height and whether the mode is interlaced. *)
Record drm_display_mode : Type := mk_mode {
  clock : Z;
  hdisplay : Z; hsync_start : Z; hsync_end : Z; htotal : Z;
  vdisplay : Z; vsync_start : Z; vsync_end : Z; vtotal : Z;
  width_mm : Z; height_mm : Z;
  flags : Z;
  type : Z;
  name : option (Z * Z * bool)
}.

Definition am4001280atzqw00h_mode : drm_display_mode :=
  mk_mode 200000
    400 (400 + 30) (400 + 5 + 40) (400 + 30 + 5 + 40)
    1280 (1280 + 30) (1280 + 20 + 30) (1280 + 30 + 20 + 30)
    190 59
    (Z.lor DRM_MODE_FLAG_NHSYNC DRM_MODE_FLAG_NVSYNC)
    0 None.

(** [am4001280atzqw00h_data.bus_flags]. *)
Definition am4001280atzqw00h_bus_flags : Z :=
  Z.lor DRM_BUS_FLAG_DE_LOW DRM_BUS_FLAG_PIXDATA_DRIVE_NEGEDGE.

Definition am4001280atzqw00h_bus_formats : list Z :=
  [MEDIA_BUS_FMT_RGB888_1X24; MEDIA_BUS_FMT_RGB666_1X18; MEDIA_BUS_FMT_RGB565_1X16].

(** The part of [struct drm_connector] that [get_modes] writes. *)
Record drm_connector : Type := mk_connector {
  probed_modes : list drm_display_mode;
  info_width_mm : Z;
  info_height_mm : Z;
  info_bus_flags : Z;
  info_bus_formats : list Z
}.

Definition drm_mode_set_name (m : drm_display_mode) : drm_display_mode :=
  mk_mode (clock m) (hdisplay m) (hsync_start m) (hsync_end m) (htotal m)
    (vdisplay m) (vsync_start m) (vsync_end m) (vtotal m)
    (width_mm m) (height_mm m) (flags m) (type m)
    (Some (hdisplay m, vdisplay m,
           negb (Z.land (flags m) DRM_MODE_FLAG_INTERLACE =? 0))).

Definition set_type (t : Z) (m : drm_display_mode) : drm_display_mode :=
  mk_mode (clock m) (hdisplay m) (hsync_start m) (hsync_end m) (htotal m)
    (vdisplay m) (vsync_start m) (vsync_end m) (vtotal m)
    (width_mm m) (height_mm m) (flags m) t (name m).

(** [am4001280atzqw00h_get_modes].  [duplicate_ok] says whether
    [drm_mode_duplicate] could allocate the copy, [formats_ok] whether
    [drm_display_info_set_bus_formats] could allocate its copy of the
    format list; the driver does not read the result of the latter. *)
Definition am4001280atzqw00h_get_modes
    (duplicate_ok formats_ok : bool) (c : drm_connector)
  : Z * drm_connector * list string :=
  if negb duplicate_ok then
    (- Setup.ENOMEM, c, ["Failed to add mode"%string])
  else
    let mode := drm_mode_set_name am4001280atzqw00h_mode in
    let mode := set_type (Z.lor DRM_MODE_TYPE_DRIVER DRM_MODE_TYPE_PREFERRED) mode in
    (1,
     mk_connector
       (probed_modes c ++ [mode])
       (width_mm mode)
       (height_mm mode)
       am4001280atzqw00h_bus_flags
       (if formats_ok then am4001280atzqw00h_bus_formats else info_bus_formats c),
     []).

(** [get_modes] called once for each element of a list of allocation
    outcomes; returns the results too. *)
Fixpoint get_modes_repeatedly (allocs : list (bool * bool)) (c : drm_connector)
  : list Z * drm_connector :=
  match allocs with
  | [] => ([], c)
  | (duplicate_ok, formats_ok) :: rest =>
      let '(r, c1, _) := am4001280atzqw00h_get_modes duplicate_ok formats_ok c in
      let (rs, c') := get_modes_repeatedly rest c1 in
      (r :: rs, c')
  end.

Definition empty_connector : drm_connector := mk_connector [] 0 0 0 [].

(** The mode [get_modes] reports: the panel's mode, named, and marked as
    the driver's preferred mode. *)
Definition reported_mode : drm_display_mode :=
  set_type (Z.lor DRM_MODE_TYPE_DRIVER DRM_MODE_TYPE_PREFERRED)
           (drm_mode_set_name am4001280atzqw00h_mode).

(** How many of the calls could duplicate the mode. *)
Definition duplicates (allocs : list (bool * bool)) : nat :=
  length (filter fst allocs).

End Modes.

(** * Properties *)

(** ** Basic facts about runs *)

Lemma issued_app m t d l : issued m (mk_machine d (trace m ++ t) l) = t.
Proof.
  unfold issued; cbn [trace].
  rewrite skipn_app, skipn_all, Nat.sub_diag; reflexivity.
Qed.

Lemma bus_ok_app t1 t2 : bus_ok t1 -> bus_ok t2 -> bus_ok (t1 ++ t2).
Proof. unfold bus_ok; intros; apply Forall_app; split; assumption. Qed.

Lemma bus_ok_nil : bus_ok [].
Proof. constructor. Qed.

Lemma bus_ok_cons_ok c r t : 0 <= r -> bus_ok t -> bus_ok (Ev c r :: t).
Proof. intros; constructor; [intros _; assumption | assumption]. Qed.

Lemma bus_ok_cons_other c r t :
  is_bus_call c = false -> bus_ok t -> bus_ok (Ev c r :: t).
Proof.
  intros Hc Ht; constructor; [cbn [ev_call]; rewrite Hc; discriminate | assumption].
Qed.

Lemma bus_ok_no_failure t e :
  bus_ok t -> In e t -> is_bus_call (ev_call e) = true -> ev_ret e < 0 -> False.
Proof.
  unfold bus_ok; rewrite Forall_forall; intros Ht Hin Hb Hneg.
  specialize (Ht e Hin Hb); lia.
Qed.

Create HintDb drv.
#[local] Hint Resolve bus_ok_nil bus_ok_app bus_ok_cons_ok bus_ok_cons_other : drv.

(** ** [push_cmd_list] *)

Section PushCmdList.

Variable hw_reply : nat -> Z.

Lemma push_cmd_list_all_ok l : forall m,
  (forall i, (i < length l)%nat -> 0 <= hw_reply (length (trace m) + i)) ->
  push_cmd_list hw_reply l m =
    (0, mk_machine (drv m) (trace m ++ write_events hw_reply (length (trace m)) l) (dmesg m)).
Proof.
  induction l as [|e l IH]; intros m Hok.
  - cbn. rewrite app_nil_r. destruct m; reflexivity.
  - cbn [push_cmd_list write_events]. unfold bind, hw at 1.
    assert (H0 : 0 <= hw_reply (length (trace m))).
    { specialize (Hok 0%nat). rewrite Nat.add_0_r in Hok. apply Hok. cbn; lia. }
    apply Z.ltb_ge in H0. rewrite H0.
    rewrite IH; cbn [trace drv dmesg].
    + rewrite length_app; cbn [length]. rewrite Nat.add_1_r, <- app_assoc. reflexivity.
    + intros i Hi. rewrite length_app; cbn [length].
      replace (length (trace m) + 1 + i)%nat with (length (trace m) + S i)%nat by lia.
      apply Hok. cbn; lia.
Qed.

Lemma push_cmd_list_fails_at l : forall m k,
  (k < length l)%nat ->
  (forall i, (i < k)%nat -> 0 <= hw_reply (length (trace m) + i)) ->
  hw_reply (length (trace m) + k) < 0 ->
  push_cmd_list hw_reply l m =
    (hw_reply (length (trace m) + k),
     mk_machine (drv m)
                (trace m ++ write_events hw_reply (length (trace m)) (firstn (S k) l))
                (dmesg m)).
Proof.
  induction l as [|e l IH]; intros m k Hk Hok Hfail; [cbn in Hk; lia|].
  cbn [push_cmd_list]. unfold bind, hw at 1.
  destruct k as [|k].
  - rewrite Nat.add_0_r in *. apply Z.ltb_lt in Hfail. rewrite Hfail.
    cbn. reflexivity.
  - assert (H0 : 0 <= hw_reply (length (trace m))).
    { specialize (Hok 0%nat). rewrite Nat.add_0_r in Hok. apply Hok. lia. }
    apply Z.ltb_ge in H0. rewrite H0.
    rewrite (IH _ k); cbn [trace drv dmesg]; rewrite ?length_app; cbn [length].
    + replace (length (trace m) + 1 + k)%nat with (length (trace m) + S k)%nat by lia.
      rewrite Nat.add_1_r, <- app_assoc. reflexivity.
    + cbn in Hk; lia.
    + intros i Hi.
      replace (length (trace m) + 1 + i)%nat with (length (trace m) + S i)%nat by lia.
      apply Hok; lia.
    + replace (length (trace m) + 1 + k)%nat with (length (trace m) + S k)%nat by lia.
      assumption.
Qed.

End PushCmdList.

(** Whatever the bus does, [push_cmd_list] leaves the driver data and the
    log alone, and either every write succeeded and it returns 0, or the
    last write it issued failed and it returns the code of that write. *)
Lemma push_cmd_list_outcome hw_reply l : forall m,
  exists r t,
    push_cmd_list hw_reply l m = (r, mk_machine (drv m) (trace m ++ t) (dmesg m)) /\
    ((r = 0 /\ bus_ok t) \/
     (r < 0 /\ exists pre c,
         t = pre ++ [Ev c r] /\ is_bus_call c = true /\ bus_ok pre)).
Proof.
  induction l as [|e l IH]; intros m.
  - exists 0, []. cbn. rewrite app_nil_r. destruct m; auto with drv.
  - cbn [push_cmd_list]. unfold bind, hw at 1.
    destruct (hw_reply (length (trace m)) <? 0) eqn:E.
    + apply Z.ltb_lt in E.
      exists (hw_reply (length (trace m))), [write_event hw_reply (length (trace m)) e].
      split; [reflexivity|]. right. split; [assumption|].
      exists [], (mipi_dsi_generic_write [cmd e; param e]). auto with drv.
    + apply Z.ltb_ge in E.
      match goal with |- context [push_cmd_list _ _ ?m1] =>
        destruct (IH m1) as (r & t & Hrun & Hres) end.
      rewrite Hrun; cbn [drv trace dmesg].
      exists r, (write_event hw_reply (length (trace m)) e :: t).
      split; [rewrite <- app_assoc; reflexivity|].
      destruct Hres as [[-> Hok] | (Hneg & pre & c & -> & Hc & Hok)].
      * left. split; [reflexivity|]. apply bus_ok_cons_ok; assumption.
      * right. split; [assumption|].
        exists (write_event hw_reply (length (trace m)) e :: pre), c.
        repeat split; try assumption. apply bus_ok_cons_ok; assumption.
Qed.

(** C8 -- For a list of N entries and a bus whose writes succeed at
    indices 0..k-1 and fail first at index k < N, [push_cmd_list] issues the
    writes of entries 0..k in order, each a generic write of the two bytes
    (address, value), issues nothing after the failing write, and returns the
    error code of that write as it is; when all N writes succeed it issues
    all N writes in order and returns 0.  The driver data is not touched. *)
Theorem push_cmd_list_stops_at_first_failure
    (hw_reply : nat -> Z) (l : list cmd_set_entry) (m : machine) :
  let base := length (trace m) in
  (forall k, (k < length l)%nat ->
     (forall i, (i < k)%nat -> 0 <= hw_reply (base + i)%nat) ->
     hw_reply (base + k)%nat < 0 ->
     push_cmd_list hw_reply l m =
       (hw_reply (base + k)%nat,
        mk_machine (drv m)
                   (trace m ++ write_events hw_reply base (firstn (S k) l))
                   (dmesg m)))
  /\
  ((forall i, (i < length l)%nat -> 0 <= hw_reply (base + i)%nat) ->
   push_cmd_list hw_reply l m =
     (0, mk_machine (drv m) (trace m ++ write_events hw_reply base l) (dmesg m))).
Proof.
  cbv zeta; split.
  - intros k Hk Hok Hfail. apply push_cmd_list_fails_at; assumption.
  - apply push_cmd_list_all_ok.
Qed.

Lemma push_cmd_list_stops_at_first_failure_witness :
  push_cmd_list (fails_at 2 (-5)) mcs_am40001280 (probed true) =
    (-5, mk_machine (drv (probed true))
           [Ev (mipi_dsi_generic_write [0xb0; 0x5a]) 0;
            Ev (mipi_dsi_generic_write [0xb1; 0x00]) 0;
            Ev (mipi_dsi_generic_write [0x89; 0x01]) (-5)] [])
  /\
  push_cmd_list all_succeed two_entries (probed true) =
    (0, mk_machine (drv (probed true))
          [Ev (mipi_dsi_generic_write [0xb0; 0x5a]) 0;
           Ev (mipi_dsi_generic_write [0xb1; 0x00]) 0] []).
Proof.
  split.
  - apply (proj1 (push_cmd_list_stops_at_first_failure
                    (fails_at 2 (-5)) mcs_am40001280 (probed true)) 2%nat).
    + vm_compute; lia.
    + intros i Hi. destruct i as [|[|i]]; cbn; lia.
    + reflexivity.
  - apply (proj2 (push_cmd_list_stops_at_first_failure
                    all_succeed two_entries (probed true))).
    intros i _. unfold all_succeed. lia.
Defined.

(** Counterexample to C8 as stated: a bus that fails first at index 0 and a
    bus that fails first at index 1, both with code -5, make [push_cmd_list]
    return the same value, so no index can be read off the result. *)
Lemma push_cmd_list_result_has_no_index :
  ~ exists index_of : Z -> nat,
      index_of (fst (push_cmd_list (fails_at 0 (-5)) two_entries (probed true))) = 0%nat /\
      index_of (fst (push_cmd_list (fails_at 1 (-5)) two_entries (probed true))) = 1%nat.
Proof.
  intros (index_of & H0 & H1).
  change (index_of (-5) = 0%nat) in H0.
  change (index_of (-5) = 1%nat) in H1.
  congruence.
Qed.

(** ** Stepping through the driver functions *)

Ltac unfold_driver :=
  unfold am4001280atzqw00h_enable, am4001280atzqw00h_platform_enable,
    am4001280atzqw00h_disable, am4001280atzqw00h_prepare,
    am4001280atzqw00h_unprepare, am4001280atzqw00h_suspend,
    am4001280atzqw00h_resume, am4001280atzqw00h_wait,
    backlight_set_brightness, am4001280atzqw00h_backlight_update_status,
    enable_fail, bind, ret, get_drv, hw, hw_void, dev_log, modify_drv.

Ltac reduce_machine :=
  cbn beta iota;
  cbn [drv trace dmesg fst snd negb
       reset_pin mode_flags brightness prepared enabled suspended
       set_mode_flags set_prepared set_enabled set_brightness_prop].

Ltac normalize_machine :=
  reduce_machine;
  try change (1 <? 0) with false;
  try change (0 <? 0) with false;
  reduce_machine.

Ltac step_if :=
  first
    [ match goal with
      | H : ?b = _ |- context [if ?b then _ else _] => rewrite H
      | H : ?b = _ |- context [if negb ?b then _ else _] => rewrite H
      end
    | match goal with
      | |- context [if negb ?b then _ else _] => destruct b eqn:?
      | |- context [if ?b then _ else _] => destruct b eqn:?
      end ];
  normalize_machine.

Ltac step_push :=
  match goal with
  | |- context [push_cmd_list ?r ?l ?m] =>
      let ret := fresh "r_mcs" in
      let t := fresh "t_mcs" in
      let Hrun := fresh "Hrun" in
      let Hres := fresh "Hres" in
      destruct (push_cmd_list_outcome r l m) as (ret & t & Hrun & Hres);
      rewrite Hrun;
      destruct Hres as [[-> Hres] | [? (? & ? & -> & ? & Hres)]]
  end; normalize_machine.

Ltac zify_tests :=
  repeat match goal with
         | H : (_ <? _) = true |- _ => apply Z.ltb_lt in H
         | H : (_ <? _) = false |- _ => apply Z.ltb_ge in H
         | H : (_ =? _) = true |- _ => apply Z.eqb_eq in H
         | H : (_ =? _) = false |- _ => apply Z.eqb_neq in H
         end.

Ltac solve_bus_ok :=
  repeat first
    [ assumption
    | apply bus_ok_nil
    | apply bus_ok_cons_ok; [lia|]
    | apply bus_ok_cons_other; [reflexivity|]
    | apply bus_ok_app ].

Lemma ends_in_rollback_base r g c :
  is_bus_call c = true -> ends_in_rollback r g [Ev c r; g].
Proof. intros Hc; exists [], c; auto with drv. Qed.

Lemma ends_in_rollback_app r g t1 t2 :
  bus_ok t1 -> ends_in_rollback r g t2 -> ends_in_rollback r g (t1 ++ t2).
Proof.
  intros H1 (pre & c & -> & Hc & Hpre).
  exists (t1 ++ pre), c. rewrite app_assoc. auto with drv.
Qed.

Lemma ends_in_rollback_cons r g e t :
  bus_ok [e] -> ends_in_rollback r g t -> ends_in_rollback r g (e :: t).
Proof. intros He Ht. apply (ends_in_rollback_app r g [e] t); assumption. Qed.

Ltac solve_rollback :=
  repeat first
    [ apply ends_in_rollback_base; first [reflexivity | assumption]
    | apply ends_in_rollback_cons; [solve [solve_bus_ok]|]
    | apply ends_in_rollback_app; [solve [solve_bus_ok]|] ].

(** What a call of Enable that passes its guard can do: either every bus
    call succeeded, it returns 0 and the enabled flag is set; or the last
    bus call it issued failed, the call after it is the assertion of the
    reset GPIO, it returns the code of the failed call and the three flags
    are as before. *)
Lemma enable_outcome hw_reply m :
  enabled (drv m) = false ->
  exists r m' t,
    am4001280atzqw00h_platform_enable hw_reply m = (r, m') /\
    trace m' = trace m ++ t /\
    reset_pin (drv m') = reset_pin (drv m) /\
    prepared (drv m') = prepared (drv m) /\
    suspended (drv m') = suspended (drv m) /\
    ((r = 0 /\ bus_ok t /\ enabled (drv m') = true) \/
     (r < 0 /\ enabled (drv m') = false /\
      ends_in_rollback r (Ev (gpiod_set_value_cansleep (reset_pin (drv m)) 1) 0) t)).
Proof.
  intros Hen. unfold_driver. normalize_machine. rewrite Hen.
  generalize mcs_am40001280; intros tbl.
  repeat first [step_if | step_push]; try congruence; try discriminate;
    zify_tests; try lia;
    rewrite <- ?app_assoc in *; cbn [app] in *;
    (eexists _, _, _; split; [reflexivity|]; normalize_machine;
     split; [reflexivity|]; do 3 (split; [first [reflexivity | assumption]|])).
  all: first
    [ left; split; [reflexivity|]; split; [solve_bus_ok | reflexivity]
    | right; split; [assumption|]; split; [assumption|]; solve_rollback ].
Qed.

(** ** Enable: failure and rollback *)

(** With the enabled flag set, Enable stops at its guard. *)
Lemma enable_refused hw_reply m :
  enabled (drv m) = true ->
  am4001280atzqw00h_platform_enable hw_reply m =
    (1, mk_machine (drv m) (trace m ++ [])
          (dmesg m ++ ["Got call to enable despite already being enabled"%string])).
Proof.
  intros Hen. unfold_driver. normalize_machine. rewrite Hen.
  rewrite app_nil_r. reflexivity.
Qed.

Lemma in_rollback_tail r g pre c e :
  bus_ok pre ->
  is_bus_call (ev_call g) = false ->
  In e (pre ++ [Ev c r; g]) ->
  is_bus_call (ev_call e) = true ->
  ev_ret e < 0 ->
  e = Ev c r.
Proof.
  intros Hpre Hg Hin Hbus Hneg.
  apply in_app_or in Hin. destruct Hin as [Hin | [<- | [<- | []]]].
  - exfalso. eapply bus_ok_no_failure; eassumption.
  - reflexivity.
  - congruence.
Qed.

(** C7 -- If a bus command issued by Enable (soft reset, sleep entry,
    display-off, a write of the command set, sleep exit or display-on)
    returns an error, then that command is the last one Enable puts on the
    bus, the next and last thing Enable does is to assert the reset GPIO,
    Enable returns the error code of the command, and the prepared, enabled
    and suspended flags are as they were: the enabled flag is not set. *)
Theorem enable_failure_asserts_reset_and_keeps_flags
    (hw_reply : nat -> Z) (m : machine) (e : hw_event) :
  In e (issued m (snd (am4001280atzqw00h_enable hw_reply m))) ->
  is_bus_call (ev_call e) = true ->
  ev_ret e < 0 ->
  let '(r, m') := am4001280atzqw00h_enable hw_reply m in
  r = ev_ret e /\
  (exists pre,
      issued m m' =
        pre ++ [e; Ev (gpiod_set_value_cansleep (reset_pin (drv m)) 1) 0] /\
      bus_ok pre) /\
  lifecycle (drv m') = lifecycle (drv m) /\
  enabled (drv m') = false.
Proof.
  intros Hin Hbus Hneg. unfold am4001280atzqw00h_enable in *.
  destruct (enabled (drv m)) eqn:Hen.
  { exfalso. rewrite enable_refused in Hin by assumption.
    cbn [snd] in Hin. rewrite issued_app in Hin. destruct Hin. }
  destruct (enable_outcome hw_reply m Hen)
    as (r & m' & t & Hrun & Htrace & _ & Hprep & Hsusp & Hres).
  rewrite Hrun in *. cbn [snd] in Hin.
  assert (Hissued : issued m m' = t).
  { unfold issued. rewrite Htrace, skipn_app, skipn_all, Nat.sub_diag. reflexivity. }
  rewrite Hissued in *.
  destruct Hres as [(_ & Hok & _) | (_ & Hen' & pre & c & -> & Hc & Hpre)].
  - exfalso. eapply bus_ok_no_failure; eassumption.
  - assert (He : e = Ev c r).
    { eapply in_rollback_tail; [exact Hpre | | exact Hin | exact Hbus | exact Hneg].
      reflexivity. }
    subst e. cbn [ev_ret]. split; [reflexivity|]. split.
    + exists pre. auto.
    + unfold lifecycle. rewrite Hprep, Hsusp, Hen', Hen. auto.
Qed.

Lemma enable_failure_asserts_reset_and_keeps_flags_witness :
  let '(r, m') := am4001280atzqw00h_enable (fails_at 10 (-5)) (probed true) in
  r = -5 /\
  (exists pre,
      issued (probed true) m' =
        pre ++ [Ev (mipi_dsi_generic_write [0x00; 0xb7]) (-5);
                Ev (gpiod_set_value_cansleep true 1) 0] /\
      bus_ok pre) /\
  lifecycle (drv m') = (false, false, false) /\
  enabled (drv m') = false.
Proof.
  apply (enable_failure_asserts_reset_and_keeps_flags
           (fails_at 10 (-5)) (probed true)
           (Ev (mipi_dsi_generic_write [0x00; 0xb7]) (-5))).
  - vm_compute. do 10 right. left. reflexivity.
  - reflexivity.
  - cbn. lia.
Defined.

(** The rollback at each of the six kinds of bus command of Enable.  With
    the suspended flag clear the calls are numbered: 0 soft reset, 1
    enter-sleep, 2 display-off, 3 to 256 the command set, 258 display-on;
    with the flag set the exit-sleep command is call 256. *)
Example enable_rollback_at_each_command :
  enable_ending (fails_at 0 (-5)) (probed true) =
    (-5, [mipi_dsi_dcs_soft_reset; gpiod_set_value_cansleep true 1]) /\
  enable_ending (fails_at 1 (-5)) (probed true) =
    (-5, [mipi_dsi_dcs_enter_sleep_mode; gpiod_set_value_cansleep true 1]) /\
  enable_ending (fails_at 2 (-5)) (probed true) =
    (-5, [mipi_dsi_dcs_set_display_off; gpiod_set_value_cansleep true 1]) /\
  enable_ending (fails_at 256 (-5)) (probed true) =
    (-5, [mipi_dsi_generic_write [0x89; 0x03]; gpiod_set_value_cansleep true 1]) /\
  enable_ending (fails_at 256 (-5)) suspended_panel =
    (-5, [mipi_dsi_dcs_exit_sleep_mode; gpiod_set_value_cansleep true 1]) /\
  enable_ending (fails_at 258 (-5)) (probed true) =
    (-5, [mipi_dsi_dcs_set_display_on; gpiod_set_value_cansleep true 1]) /\
  enable_ending (fails_at 1 (-5)) (probed false) =
    (-5, [mipi_dsi_dcs_enter_sleep_mode; gpiod_set_value_cansleep false 1]).
Proof. repeat match goal with |- _ /\ _ => split end; vm_compute; reflexivity. Qed.

(** ** The enabled flag over sequences of calls *)

Lemma prepare_keeps_drv hw_reply m :
  drv (snd (am4001280atzqw00h_prepare hw_reply m)) = drv m.
Proof. unfold_driver. normalize_machine. repeat step_if; reflexivity. Qed.

Lemma suspend_keeps_drv hw_reply m :
  drv (snd (am4001280atzqw00h_suspend hw_reply m)) = drv m.
Proof. unfold_driver. normalize_machine. repeat step_if; reflexivity. Qed.

Lemma resume_keeps_drv hw_reply m :
  drv (snd (am4001280atzqw00h_resume hw_reply m)) = drv m.
Proof. unfold_driver. normalize_machine. repeat step_if; reflexivity. Qed.

Lemma unprepare_keeps_enabled hw_reply m :
  enabled (drv (snd (am4001280atzqw00h_unprepare hw_reply m))) = enabled (drv m).
Proof. unfold_driver. normalize_machine. repeat step_if; reflexivity. Qed.



Lemma run_ops_cons hw_reply op ops m :
  run_ops hw_reply (op :: ops) m =
    let (r, m1) := run_op hw_reply op m in
    let (rs, m') := run_ops hw_reply ops m1 in
    (r :: rs, m').
Proof. reflexivity. Qed.






(** The flags after a Prepare and an Enable that both returned 0: the
    enabled flag is set, the prepared flag is not. *)
Example flags_after_prepare_and_enable :
  fst (run_ops all_succeed [Prepare; Enable] (probed true)) = [0; 0] /\
  lifecycle (drv ready_panel) = (false, true, false).
Proof. split; vm_compute; reflexivity. Qed.


(** ** Guards and flags of the single calls *)

Ltac split_conj := repeat match goal with |- _ /\ _ => split end.

(** C1 -- What Unprepare does on the two sides of its guard.  With the
    prepared flag set it returns 1, logs that the panel was already not
    prepared and calls nothing; with the flag clear (a freshly probed panel)
    it pulses the reset GPIO, disables the regulators and returns 0. *)
Theorem unprepare_refuses_prepared_panel :
  am4001280atzqw00h_unprepare all_succeed prepared_panel =
    (1, mk_machine (drv prepared_panel) []
          ["Got call to unprepare despite already not being prepared"%string])
  /\
  am4001280atzqw00h_unprepare all_succeed (probed true) =
    (0, mk_machine (drv (probed true))
          [Ev (gpiod_set_value_cansleep true 1) 0;
           Ev (usleep_range 15000 17000) 0;
           Ev (gpiod_set_value_cansleep true 0) 0;
           Ev regulator_bulk_disable 0] []).
Proof. split_conj; vm_compute; reflexivity. Qed.

(** C2 -- Prepare never writes the driver data, so the prepared flag is
    after the call what it was before; on a freshly probed panel whose
    regulators come up it returns 0 and the flag is still clear. *)
Theorem prepare_leaves_prepared_flag_clear :
  (forall hw_reply m, drv (snd (am4001280atzqw00h_prepare hw_reply m)) = drv m)
  /\
  am4001280atzqw00h_prepare all_succeed (probed true) =
    (0, mk_machine (drv (probed true))
          [Ev regulator_bulk_enable 0;
           Ev (usleep_range 10000 12000) 0;
           Ev (gpiod_set_value_cansleep true 0) 0;
           Ev (msleep 50) 0] [])
  /\
  prepared (drv (snd (am4001280atzqw00h_prepare all_succeed (probed true)))) = false.
Proof.
  split; [exact prepare_keeps_drv | split_conj; vm_compute; reflexivity].
Qed.

(** C4 -- What Disable does on the two sides of its guard.  On the panel
    left by a successful Enable (enabled flag set) it returns 1, logs that
    the panel was not enabled and calls nothing; on a freshly probed panel
    (enabled flag clear) it runs the teardown and returns 0. *)
Theorem disable_refuses_enabled_panel :
  enabled (drv enabled_panel) = true
  /\
  am4001280atzqw00h_disable all_succeed enabled_panel =
    (1, mk_machine (drv enabled_panel) (trace enabled_panel)
          (dmesg enabled_panel ++
           ["Got call to disable despite not being enabled"%string]))
  /\
  am4001280atzqw00h_disable all_succeed (probed true) =
    (0, mk_machine
          (set_mode_flags
             (Z.lor (Z.lor MIPI_DSI_MODE_VIDEO_HSE MIPI_DSI_MODE_VIDEO)
                    MIPI_DSI_MODE_LPM)
             (drv (probed true)))
          [Ev backlight_disable 0;
           Ev (usleep_range 10000 12000) 0;
           Ev mipi_dsi_dcs_set_display_off 0;
           Ev mipi_dsi_dcs_enter_sleep_mode 0] []).
Proof. split_conj; vm_compute; reflexivity. Qed.

(** C5 -- Suspend and Resume never write the driver data, so the suspended
    flag is never set.  On a freshly probed panel Suspend returns 0 with the
    flag still clear, a second Suspend enters sleep again and returns 0, and
    Resume after Suspend returns 1 without an exit-sleep command. *)
Theorem suspend_never_records_sleep :
  (forall hw_reply m, drv (snd (am4001280atzqw00h_suspend hw_reply m)) = drv m)
  /\
  (forall hw_reply m, drv (snd (am4001280atzqw00h_resume hw_reply m)) = drv m)
  /\
  am4001280atzqw00h_suspend all_succeed (probed true) =
    (0, mk_machine (drv (probed true)) [Ev mipi_dsi_dcs_enter_sleep_mode 0] [])
  /\
  run_ops all_succeed [Suspend; Suspend] (probed true) =
    ([0; 0], mk_machine (drv (probed true))
               [Ev mipi_dsi_dcs_enter_sleep_mode 0;
                Ev mipi_dsi_dcs_enter_sleep_mode 0] [])
  /\
  run_ops all_succeed [Suspend; Resume] (probed true) =
    ([0; 1], mk_machine (drv (probed true))
               [Ev mipi_dsi_dcs_enter_sleep_mode 0]
               ["Got call to resume despite not being suspended"%string]).
Proof.
  split; [exact suspend_keeps_drv|].
  split; [exact resume_keeps_drv|].
  split_conj; vm_compute; reflexivity.
Qed.

(** C6 -- The calls of an Enable on a freshly probed panel during which
    every call succeeds: soft reset, enter-sleep, display-off, the command
    set, the settle delay, display-on, backlight enable.  No exit-sleep
    command is among them: the Resume inside Enable returns 1 at its guard,
    which Enable does not take for a failure. *)
Theorem enable_issues_no_exit_sleep :
  fst (am4001280atzqw00h_enable all_succeed (probed true)) = 0
  /\
  trace enabled_panel =
    [Ev mipi_dsi_dcs_soft_reset 0;
     Ev mipi_dsi_dcs_enter_sleep_mode 0;
     Ev mipi_dsi_dcs_set_display_off 0]
    ++ write_events all_succeed 3 mcs_am40001280
    ++ [Ev (usleep_range 5000 7000) 0;
        Ev mipi_dsi_dcs_set_display_on 0;
        Ev backlight_enable 0]
  /\
  existsb is_exit_sleep (trace enabled_panel) = false
  /\
  dmesg enabled_panel = ["Got call to resume despite not being suspended"%string]
  /\
  lifecycle (drv enabled_panel) = (false, true, false).
Proof. split_conj; vm_compute; reflexivity. Qed.

(** What setting a level does, by the prepared flag: with the flag clear
    nothing is put on the bus; with the flag set exactly one
    set-display-brightness command carries the level, and its error code, if
    any, is returned. *)
Lemma backlight_set_brightness_by_flag hw_reply level m :
  backlight_set_brightness hw_reply level m =
    if prepared (drv m) then
      let r := hw_reply (length (trace m)) in
      (if r <? 0 then r else 0,
       mk_machine (set_brightness_prop level (drv m))
         (trace m ++ [Ev (mipi_dsi_dcs_set_display_brightness level) r])
         (dmesg m ++
          if r <? 0
          then ["Failed to set backlight brightness while updating the backlight."%string]
          else []))
    else
      (0, mk_machine (set_brightness_prop level (drv m)) (trace m)
            (dmesg m ++
             ["Tried to update backlight status despite not being prepared."%string])).
Proof.
  unfold_driver. normalize_machine.
  destruct (prepared (drv m)); normalize_machine; [|reflexivity].
  cbv zeta. destruct (hw_reply (length (trace m)) <? 0); normalize_machine;
    rewrite ?app_nil_r; reflexivity.
Qed.

(** C9 -- After a Prepare and an Enable that both return 0, setting the
    brightness to 128 returns 0, puts nothing on the bus and logs that the
    panel is not prepared. *)
Theorem brightness_after_enable_is_not_written :
  fst (run_ops all_succeed [Prepare; Enable] (probed true)) = [0; 0]
  /\
  fst (backlight_set_brightness all_succeed 128 ready_panel) = 0
  /\
  issued ready_panel (snd (backlight_set_brightness all_succeed 128 ready_panel)) = []
  /\
  dmesg (snd (backlight_set_brightness all_succeed 128 ready_panel)) =
    dmesg ready_panel ++
    ["Tried to update backlight status despite not being prepared."%string].
Proof. split_conj; vm_compute; reflexivity. Qed.

(** ** [am4001280atzqw00h_wait] *)

Lemma s64_small z : - 2 ^ 63 <= z < 2 ^ 63 -> s64 z = z.
Proof.
  intros Hz. unfold s64.
  rewrite Z.mod_small by lia. lia.
Qed.

Lemma u32_small z : 0 <= z < 2 ^ 32 -> u32 z = z.
Proof. intros Hz. unfold u32. apply Z.mod_small. assumption. Qed.

Lemma deadline_exact start_ktime min_ms :
  0 <= min_ms < 2 ^ 32 ->
  0 <= start_ktime ->
  start_ktime + min_ms * NSEC_PER_MSEC < 2 ^ 63 ->
  ktime_add start_ktime (ms_to_ktime min_ms) = start_ktime + min_ms * NSEC_PER_MSEC.
Proof.
  intros Hms Hstart Hsum. unfold ktime_add, ms_to_ktime, NSEC_PER_MSEC in *.
  rewrite (s64_small (min_ms * 1000000)) by lia.
  apply s64_small. lia.
Qed.

Lemma remainder_exact deadline now :
  0 <= now < deadline -> deadline < 2 ^ 63 ->
  ktime_sub deadline now = deadline - now.
Proof. intros Hnow Hd. unfold ktime_sub. apply s64_small. lia. Qed.

Lemma sleep_covers_remainder d :
  0 < d ->
  Z.quot d NSEC_PER_MSEC + 1 < 2 ^ 32 ->
  d < u32 (Z.quot d NSEC_PER_MSEC + 1) * NSEC_PER_MSEC.
Proof.
  unfold NSEC_PER_MSEC. intros Hd.
  rewrite Z.quot_div_nonneg by lia. intros Hfit.
  rewrite u32_small by (split; [|assumption]; Z.div_mod_to_equations; lia).
  Z.div_mod_to_equations. lia.
Qed.

Lemma sleep_count_fits start_ktime min_ms now :
  0 <= min_ms < 2 ^ 32 - 1 ->
  start_ktime <= now < start_ktime + min_ms * NSEC_PER_MSEC ->
  Z.quot (start_ktime + min_ms * NSEC_PER_MSEC - now) NSEC_PER_MSEC + 1 < 2 ^ 32.
Proof.
  unfold NSEC_PER_MSEC. intros Hms Hnow.
  rewrite Z.quot_div_nonneg by lia.
  assert ((start_ktime + min_ms * 1000000 - now) / 1000000 <= min_ms)
    by (apply Z.div_le_upper_bound; lia).
  lia.
Qed.

(** C10, as amended -- [am4001280atzqw00h_wait start min_ms], for an
    [unsigned int] [min_ms], a start time and a clock reading that are
    non-negative [ktime_t] values, and a deadline [start + min_ms]
    milliseconds that does not overflow [ktime_t]:
    - with [min_ms = 0] it logs the invalid waiting time, returns 1 and
      calls nothing (no clock, no bus);
    - otherwise it reads the clock and issues the enter-idle-mode command;
      if that command fails it logs that and returns its error code at once;
    - if the deadline has passed it then issues the exit-idle-mode command
      without sleeping;
    - if the deadline has not passed it sleeps between the two commands, for
      the remaining whole milliseconds plus one, taken modulo 2^32 (the
      width of the argument of [msleep]).  That is more than the remaining
      time whenever the count is below 2^32, and so whenever the start time
      is not in the future and [min_ms] is below 2^32 - 1.
    So a sleep is always directly preceded by enter-idle and directly
    followed by exit-idle, and the driver data is never touched.  The
    result of the exit-idle command is returned if it is an error. *)
Theorem wait_brackets_sleep_with_idle_mode
    (hw_reply : nat -> Z) (m : machine) (start_ktime min_ms : Z) :
  0 <= min_ms < 2 ^ 32 ->
  0 <= start_ktime ->
  start_ktime + min_ms * NSEC_PER_MSEC < 2 ^ 63 ->
  0 <= hw_reply (length (trace m)) < 2 ^ 63 ->
  let base := length (trace m) in
  let now := hw_reply base in
  let deadline := start_ktime + min_ms * NSEC_PER_MSEC in
  let clock := Ev ktime_get now in
  let enter := Ev (mipi_dsi_dcs_write MIPI_DCS_ENTER_IDLE_MODE []) (hw_reply (S base)) in
  let leave := fun n => Ev (mipi_dsi_dcs_write MIPI_DCS_EXIT_IDLE_MODE []) (hw_reply n) in
  let r := fst (am4001280atzqw00h_wait hw_reply start_ktime min_ms m) in
  let m' := snd (am4001280atzqw00h_wait hw_reply start_ktime min_ms m) in
  drv m' = drv m /\
  (min_ms = 0 ->
     r = 1 /\ issued m m' = [] /\
     dmesg m' = dmesg m ++ ["Got invalid waiting time"%string]) /\
  (min_ms <> 0 -> hw_reply (S base) < 0 ->
     r = hw_reply (S base) /\ issued m m' = [clock; enter] /\
     dmesg m' = dmesg m ++ ["Failed to enter idle mode while waiting"%string]) /\
  (min_ms <> 0 -> 0 <= hw_reply (S base) -> deadline <= now ->
     r = Z.min 0 (hw_reply (2 + base)%nat) /\
     issued m m' = [clock; enter; leave (2 + base)%nat]) /\
  (min_ms <> 0 -> 0 <= hw_reply (S base) -> now < deadline ->
     exists msecs,
       r = Z.min 0 (hw_reply (3 + base)%nat) /\
       issued m m' = [clock; enter; Ev (msleep msecs) 0; leave (3 + base)%nat] /\
       msecs = u32 (Z.quot (deadline - now) NSEC_PER_MSEC + 1) /\
       (Z.quot (deadline - now) NSEC_PER_MSEC + 1 < 2 ^ 32 ->
        deadline - now < msecs * NSEC_PER_MSEC) /\
       (start_ktime <= now -> min_ms < 2 ^ 32 - 1 ->
        deadline - now < msecs * NSEC_PER_MSEC)).
Proof.
  intros Hms Hstart Hsum Hnow. cbv zeta.
  unfold_driver. rewrite deadline_exact by assumption.
  unfold ktime_before, ktime_to_ms.
  set (base := length (trace m)) in *.
  set (deadline := start_ktime + min_ms * NSEC_PER_MSEC) in *.
  normalize_machine.
  destruct (min_ms =? 0) eqn:Ezero; normalize_machine.
  - apply Z.eqb_eq in Ezero. split; [reflexivity|].
    split; [intros _; split; [reflexivity|]; split; [| reflexivity];
            unfold issued; cbn [trace]; apply skipn_all | ].
    repeat split; intros; exfalso; lia.
  - apply Z.eqb_neq in Ezero.
    rewrite !length_app; cbn [length]; rewrite !Nat.add_1_r; fold base.
    destruct (hw_reply (S base) <? 0) eqn:Eenter; normalize_machine;
      [| destruct (hw_reply base <? deadline) eqn:Elate; normalize_machine;
         rewrite !length_app; cbn [length]; rewrite !Nat.add_1_r; fold base;
         match goal with
         | |- context [if ?b then _ else _] => destruct b eqn:Eleave
         end; normalize_machine ];
      zify_tests;
      (split; [reflexivity|]);
      (split; [intros; exfalso; lia|]);
      split_conj; intros; try (exfalso; lia);
      try (eexists; split_conj; [| | reflexivity | |]); split_conj;
      rewrite ?remainder_exact by lia; cbn [plus]; intros;
      try lia;
      try (apply sleep_covers_remainder;
           [lia | first [assumption | subst deadline; apply sleep_count_fits; lia]]);
      try reflexivity;
      unfold issued; cbn [trace]; rewrite <- ?app_assoc; cbn [app];
      rewrite skipn_app, skipn_all, Nat.sub_diag; reflexivity.
Qed.

Lemma wait_brackets_sleep_with_idle_mode_witness :
  exists msecs,
    fst (am4001280atzqw00h_wait (clock_at 10000000) 0 50 (probed true)) = 0 /\
    issued (probed true)
           (snd (am4001280atzqw00h_wait (clock_at 10000000) 0 50 (probed true))) =
      [Ev ktime_get 10000000;
       Ev (mipi_dsi_dcs_write MIPI_DCS_ENTER_IDLE_MODE []) 0;
       Ev (msleep msecs) 0;
       Ev (mipi_dsi_dcs_write MIPI_DCS_EXIT_IDLE_MODE []) 0] /\
    msecs = 41 /\
    50 * NSEC_PER_MSEC - 10000000 < msecs * NSEC_PER_MSEC.
Proof.
  assert (Hms : 0 <= 50 < 2 ^ 32) by lia.
  assert (Hstart : 0 <= 0) by lia.
  assert (Hsum : 0 + 50 * NSEC_PER_MSEC < 2 ^ 63) by (vm_compute; reflexivity).
  assert (Hnow : 0 <= clock_at 10000000 (length (trace (probed true))) < 2 ^ 63)
    by (vm_compute; split; [discriminate | reflexivity]).
  destruct (wait_brackets_sleep_with_idle_mode
              (clock_at 10000000) (probed true) 0 50 Hms Hstart Hsum Hnow)
    as (_ & _ & _ & _ & Hsleep).
  destruct Hsleep as (msecs & Hret & Hcalls & Hmsecs & _ & Hbound).
  - lia.
  - vm_compute. discriminate.
  - vm_compute. reflexivity.
  - exists msecs. split; [exact Hret|]. split; [exact Hcalls|].
    split; [exact Hmsecs|]. apply Hbound.
    + vm_compute. discriminate.
    + lia.
Defined.

(** Counterexample to C10 as stated: with [min_ms] at the largest
    [unsigned int] and the clock still at the start time, the deadline has
    not passed and 4294967295 ms remain, yet the wait calls [msleep] with
    argument 0: the count of milliseconds, 4294967296, does not fit the
    argument of [msleep]. *)
Lemma wait_sleeps_zero_at_uint_max :
  issued (probed true)
         (snd (am4001280atzqw00h_wait (clock_at 0) 0 4294967295 (probed true))) =
    [Ev ktime_get 0;
     Ev (mipi_dsi_dcs_write MIPI_DCS_ENTER_IDLE_MODE []) 0;
     Ev (msleep 0) 0;
     Ev (mipi_dsi_dcs_write MIPI_DCS_EXIT_IDLE_MODE []) 0] /\
  ~ (0 + 4294967295 * NSEC_PER_MSEC - clock_at 0 0 <= 0 * NSEC_PER_MSEC).
Proof.
  split; [vm_compute; reflexivity|].
  unfold NSEC_PER_MSEC, clock_at. lia.
Qed.

(** * Further properties of the driver *)

(** ** [push_cmd_list], continued *)

Lemma push_cmd_list_app_eq hw_reply l1 : forall l2 m,
  push_cmd_list hw_reply (l1 ++ l2) m =
    let (r, m1) := push_cmd_list hw_reply l1 m in
    if r <? 0 then (r, m1) else push_cmd_list hw_reply l2 m1.
Proof.
  induction l1 as [|e l1 IH]; intros l2 m.
  - reflexivity.
  - cbn [app push_cmd_list]. unfold bind, hw, ret. cbn beta iota.
    destruct (hw_reply (length (trace m)) <? 0) eqn:E.
    + rewrite E. reflexivity.
    + apply IH.
Qed.

(** X1 -- Replaying a list that is the concatenation of two lists is
    replaying the first and, unless a write of it failed, replaying the
    second from where the first stopped; a failure in the first list is
    returned and nothing of the second list is written. *)
Theorem push_cmd_list_app
    (hw_reply : nat -> Z) (l1 l2 : list cmd_set_entry) (m : machine) :
  push_cmd_list hw_reply (l1 ++ l2) m =
    let (r, m1) := push_cmd_list hw_reply l1 m in
    if r <? 0 then (r, m1) else push_cmd_list hw_reply l2 m1.
Proof. apply push_cmd_list_app_eq. Qed.

(** The calls of a replay are the writes of a prefix of the list: the whole
    list when it returns 0, a non-empty prefix whose last write failed when
    it returns an error. *)
Lemma push_cmd_list_shape hw_reply l : forall m,
  exists r k,
    push_cmd_list hw_reply l m =
      (r, mk_machine (drv m)
            (trace m ++ write_events hw_reply (length (trace m)) (firstn k l))
            (dmesg m)) /\
    (k <= length l)%nat /\
    ((r = 0 /\ k = length l) \/ (r < 0 /\ (0 < k)%nat)).
Proof.
  induction l as [|e l IH]; intros m.
  - exists 0, 0%nat. cbn. rewrite app_nil_r. destruct m. auto.
  - cbn [push_cmd_list]. unfold bind, hw, ret. cbn beta iota.
    destruct (hw_reply (length (trace m)) <? 0) eqn:E.
    + apply Z.ltb_lt in E. exists (hw_reply (length (trace m))), 1%nat.
      cbn. split; [reflexivity|]. split; [lia|]. right. split; [assumption | lia].
    + match goal with |- context [push_cmd_list _ _ ?m1] =>
        destruct (IH m1) as (r & k & Hrun & Hk & Hres) end.
      rewrite Hrun. cbn [drv trace dmesg].
      exists r, (S k). cbn [firstn write_events length].
      rewrite length_app, Nat.add_1_r, <- app_assoc. cbn [length app].
      split; [reflexivity|]. split; [lia|].
      destruct Hres as [[-> ->] | [Hneg Hpos]]; [left | right]; split; auto; lia.
Qed.

Lemma write_events_calls hw_reply l : forall base,
  map ev_call (write_events hw_reply base l) = map write_call l.
Proof.
  induction l as [|e l IH]; intros base; cbn; [reflexivity | now rewrite IH].
Qed.

Lemma write_events_length hw_reply l : forall base,
  length (write_events hw_reply base l) = length l.
Proof.
  induction l as [|e l IH]; intros base; cbn; [reflexivity | now rewrite IH].
Qed.

(** X2 -- [push_cmd_list] returns 0 or a negative code, never the positive
    byte count a successful [mipi_dsi_generic_write] returns.  The calls it
    makes are the two-byte writes of the first entries of the list, in list
    order, at most one per entry.  Either it returns 0, every entry was
    written and no write failed; or it returns a negative code, which is the
    result of the last write it made, and no write before that one failed.
    The driver data and the log are not touched. *)
Theorem push_cmd_list_result_and_calls
    (hw_reply : nat -> Z) (l : list cmd_set_entry) (m : machine) :
  let r := fst (push_cmd_list hw_reply l m) in
  let m' := snd (push_cmd_list hw_reply l m) in
  r <= 0 /\
  drv m' = drv m /\
  dmesg m' = dmesg m /\
  (length (issued m m') <= length l)%nat /\
  map ev_call (issued m m') =
    map write_call (firstn (length (issued m m')) l) /\
  ((r = 0 /\ length (issued m m') = length l /\ bus_ok (issued m m')) \/
   (r < 0 /\ exists pre c, issued m m' = pre ++ [Ev c r] /\ bus_ok pre)).
Proof.
  cbv zeta.
  destruct (push_cmd_list_shape hw_reply l m) as (r & k & Hrun & Hk & Hres).
  destruct (push_cmd_list_outcome hw_reply l m) as (r' & t & Hrun' & Hres').
  assert (Ht : r' = r /\ t = write_events hw_reply (length (trace m)) (firstn k l)).
  { rewrite Hrun in Hrun'. inversion Hrun' as [[Hr Htr]].
    apply app_inv_head in Htr. auto. }
  destruct Ht as [-> Ht].
  rewrite Hrun. cbn [fst snd drv dmesg]. rewrite issued_app.
  rewrite write_events_calls, write_events_length, length_firstn.
  rewrite (Nat.min_l k) by assumption.
  split; [destruct Hres as [[-> _] | [? _]]; lia|].
  do 2 (split; [reflexivity|]). split; [assumption|].
  split; [reflexivity|].
  rewrite <- Ht.
  destruct Hres' as [[-> Hok] | (Hneg & pre & c & Hsplit & _ & Hpre)].
  - left. destruct Hres as [[_ ->] | [? _]]; [auto | lia].
  - right. split; [assumption|]. exists pre, c. auto.
Qed.

(** ** Enable, continued *)

Ltac step_push_shape :=
  match goal with
  | |- context [push_cmd_list ?r ?l ?m] =>
      let ret := fresh "r_mcs" in
      let k := fresh "k" in
      let Hrun := fresh "Hrun" in
      let Hres := fresh "Hres" in
      destruct (push_cmd_list_shape r l m) as (ret & k & Hrun & _ & Hres);
      rewrite Hrun; clear Hrun;
      destruct Hres as [[-> ->] | [? _]]
  end; normalize_machine.

(** The calls of an Enable that returns 0, around the command set. *)
Lemma enable_success_shape hw_reply m :
  enabled (drv m) = false ->
  let (r, m') := am4001280atzqw00h_platform_enable hw_reply m in
  r = 0 ->
  exists n pre post,
    trace m' = trace m ++ pre ++ write_events hw_reply n mcs_am40001280 ++ post /\
    filter is_generic_write pre = [] /\
    filter is_generic_write post = [] /\
    In mipi_dsi_dcs_set_display_off (map ev_call pre) /\
    In mipi_dsi_dcs_set_display_on (map ev_call post).
Proof.
  intros Hen. unfold_driver. normalize_machine. rewrite Hen.
  generalize mcs_am40001280; intros tbl.
  repeat first [step_if | step_push_shape]; try congruence; try discriminate;
    zify_tests; intros Hzero; try lia;
    rewrite ?firstn_all; rewrite <- ?app_assoc; cbn [app].
  all: match goal with
       | |- exists n pre post, _ ++ ?a :: ?b :: ?c :: write_events _ ?k _ ++ ?p = _ /\ _ =>
           exists k, [a; b; c], p
       | |- exists n pre post, _ ++ ?a :: ?b :: write_events _ ?k _ ++ ?p = _ /\ _ =>
           exists k, [a; b], p
       end.
  all: split; [reflexivity|]; cbn; auto 10.
Qed.

Lemma filter_write_events hw_reply l : forall base,
  filter is_generic_write (write_events hw_reply base l) = write_events hw_reply base l.
Proof.
  induction l as [|e l IH]; intros base; cbn; [reflexivity | now rewrite IH].
Qed.

(** X3 -- An Enable that returns 0 has written the complete manufacturer
    command set: the generic writes it issued are exactly the 254 entries of
    the table, in table order, each once, as one block that comes after the
    display-off command and before the display-on command.  No bus command
    of that run failed, and the enabled flag is set afterwards. *)
Theorem enable_replays_whole_command_set (hw_reply : nat -> Z) (m : machine) :
  fst (am4001280atzqw00h_enable hw_reply m) = 0 ->
  let m' := snd (am4001280atzqw00h_enable hw_reply m) in
  map ev_call (filter is_generic_write (issued m m')) =
    map write_call mcs_am40001280 /\
  (exists n pre post,
      issued m m' = pre ++ write_events hw_reply n mcs_am40001280 ++ post /\
      filter is_generic_write pre = [] /\
      filter is_generic_write post = [] /\
      In mipi_dsi_dcs_set_display_off (map ev_call pre) /\
      In mipi_dsi_dcs_set_display_on (map ev_call post)) /\
  bus_ok (issued m m') /\
  enabled (drv m') = true.
Proof.
  unfold am4001280atzqw00h_enable. intros Hzero. cbv zeta.
  destruct (enabled (drv m)) eqn:Hen.
  { rewrite enable_refused in Hzero by assumption. discriminate. }
  pose proof (enable_success_shape hw_reply m Hen) as Hshape.
  destruct (enable_outcome hw_reply m Hen)
    as (r & m' & t & Hrun & Htrace & _ & _ & _ & Hres).
  rewrite Hrun in *. cbn [fst snd] in *. subst r.
  destruct (Hshape eq_refl) as (n & pre & post & Htr & Hpre & Hpost & Hoff & Hon).
  assert (Hissued : issued m m' = pre ++ write_events hw_reply n mcs_am40001280 ++ post).
  { unfold issued. rewrite Htr, skipn_app, skipn_all, Nat.sub_diag. reflexivity. }
  assert (Ht : issued m m' = t).
  { unfold issued. rewrite Htrace, skipn_app, skipn_all, Nat.sub_diag. reflexivity. }
  split.
  - rewrite Hissued, !filter_app, Hpre, Hpost, filter_write_events, app_nil_r.
    apply write_events_calls.
  - split; [exists n, pre, post; auto|].
    rewrite Ht. destruct Hres as [(_ & Hok & Hset) | (Hneg & _)]; [auto | lia].
Qed.

Lemma enable_replays_whole_command_set_witness :
  map ev_call (filter is_generic_write (issued (probed true) enabled_panel)) =
    map write_call mcs_am40001280 /\
  (exists n pre post,
      issued (probed true) enabled_panel =
        pre ++ write_events all_succeed n mcs_am40001280 ++ post /\
      filter is_generic_write pre = [] /\
      filter is_generic_write post = [] /\
      In mipi_dsi_dcs_set_display_off (map ev_call pre) /\
      In mipi_dsi_dcs_set_display_on (map ev_call post)) /\
  bus_ok (issued (probed true) enabled_panel) /\
  enabled (drv enabled_panel) = true.
Proof.
  apply (enable_replays_whole_command_set all_succeed (probed true)).
  vm_compute. reflexivity.
Defined.

Lemma lpm_after_set f :
  negb (Z.land (Z.lor f MIPI_DSI_MODE_LPM) MIPI_DSI_MODE_LPM =? 0) = true.
Proof.
  apply negb_true_iff, Z.eqb_neq. intros Hzero.
  apply (f_equal (fun z => Z.testbit z 11)) in Hzero.
  rewrite Z.land_spec, Z.lor_spec, Z.bits_0 in Hzero.
  change (Z.testbit MIPI_DSI_MODE_LPM 11) with true in Hzero.
  rewrite orb_true_r in Hzero. discriminate.
Qed.

Lemma lpm_after_clear f :
  negb (Z.land (Z.land f (Z.lnot MIPI_DSI_MODE_LPM)) MIPI_DSI_MODE_LPM =? 0) = false.
Proof.
  apply negb_false_iff, Z.eqb_eq. apply Z.bits_inj'. intros n Hn.
  rewrite !Z.land_spec, Z.lnot_spec, Z.bits_0 by assumption.
  destruct (Z.testbit MIPI_DSI_MODE_LPM n); cbn; rewrite ?andb_false_r; reflexivity.
Qed.

Lemma enable_mode_flags hw_reply m :
  enabled (drv m) = false ->
  mode_flags (drv (snd (am4001280atzqw00h_platform_enable hw_reply m))) =
    if hw_reply (length (trace m)) <? 0
    then mode_flags (drv m)
    else Z.lor (mode_flags (drv m)) MIPI_DSI_MODE_LPM.
Proof.
  intros Hen. unfold_driver. normalize_machine. rewrite Hen.
  generalize mcs_am40001280; intros tbl.
  repeat first [step_if | step_push]; reflexivity.
Qed.

(** X4 -- An Enable that passes its guard switches the DSI device to
    low-power mode as soon as the soft reset has succeeded, and the flag
    stays set however the rest of the sequence goes; if the soft reset
    fails, the bus mode flags are not touched. *)
Theorem enable_switches_to_low_power (hw_reply : nat -> Z) (m : machine) :
  enabled (drv m) = false ->
  let m' := snd (am4001280atzqw00h_enable hw_reply m) in
  mode_flags (drv m') =
    (if hw_reply (length (trace m)) <? 0
     then mode_flags (drv m)
     else Z.lor (mode_flags (drv m)) MIPI_DSI_MODE_LPM) /\
  (0 <= hw_reply (length (trace m)) -> low_power (drv m') = true).
Proof.
  intros Hen. cbv zeta. unfold am4001280atzqw00h_enable, low_power.
  rewrite enable_mode_flags by assumption. split; [reflexivity|].
  intros Hok. apply Z.ltb_ge in Hok. rewrite Hok. apply lpm_after_set.
Qed.

Lemma enable_switches_to_low_power_witness :
  mode_flags (drv (snd (am4001280atzqw00h_enable (fails_at 2 (-5)) (probed true)))) =
    Z.lor (mode_flags (drv (probed true))) MIPI_DSI_MODE_LPM /\
  low_power (drv (snd (am4001280atzqw00h_enable (fails_at 2 (-5)) (probed true)))) = true.
Proof.
  destruct (enable_switches_to_low_power (fails_at 2 (-5)) (probed true) eq_refl)
    as [Hflags Hlpm].
  split; [exact Hflags | apply Hlpm; vm_compute; discriminate].
Defined.

(** X5 -- After an Enable that returned 0, a further Enable is refused
    whatever the hardware would answer: it returns 1, logs that the panel
    is already enabled, calls nothing and changes nothing. *)
Theorem enable_twice_is_refused (hw_reply hw_reply' : nat -> Z) (m : machine) :
  fst (am4001280atzqw00h_enable hw_reply m) = 0 ->
  let m' := snd (am4001280atzqw00h_enable hw_reply m) in
  am4001280atzqw00h_enable hw_reply' m' =
    (1, mk_machine (drv m') (trace m')
          (dmesg m' ++ ["Got call to enable despite already being enabled"%string])).
Proof.
  unfold am4001280atzqw00h_enable. intros Hzero. cbv zeta.
  assert (Hset : enabled (drv (snd (am4001280atzqw00h_platform_enable hw_reply m))) = true).
  { destruct (enabled (drv m)) eqn:Hen.
    - rewrite enable_refused in Hzero by assumption. discriminate.
    - destruct (enable_outcome hw_reply m Hen)
        as (r & m' & t & Hrun & _ & _ & _ & _ & Hres).
      rewrite Hrun in *. cbn [fst snd] in *.
      destruct Hres as [(_ & _ & Hset) | (Hneg & _)]; [assumption | lia]. }
  rewrite (enable_refused hw_reply' _ Hset), app_nil_r. reflexivity.
Qed.

Lemma enable_twice_is_refused_witness :
  am4001280atzqw00h_enable (fails_at 0 (-5)) enabled_panel =
    (1, mk_machine (drv enabled_panel) (trace enabled_panel)
          (dmesg enabled_panel ++
           ["Got call to enable despite already being enabled"%string])).
Proof.
  apply (enable_twice_is_refused all_succeed (fails_at 0 (-5)) (probed true)).
  vm_compute. reflexivity.
Defined.

(** ** What sequences of lifecycle calls keep *)

Lemma prepare_keeps_other_fields hw_reply m :
  other_fields (drv (snd (am4001280atzqw00h_prepare hw_reply m))) = other_fields (drv m).
Proof. now rewrite prepare_keeps_drv. Qed.

Lemma unprepare_keeps_other_fields hw_reply m :
  other_fields (drv (snd (am4001280atzqw00h_unprepare hw_reply m))) = other_fields (drv m).
Proof.
  unfold other_fields. unfold_driver. normalize_machine.
  destruct (prepared (drv m)) eqn:Hp; normalize_machine; [congruence|].
  repeat step_if; normalize_machine; congruence.
Qed.

Lemma enable_keeps_other_fields hw_reply m :
  other_fields (drv (snd (am4001280atzqw00h_platform_enable hw_reply m))) =
    other_fields (drv m).
Proof.
  unfold other_fields. unfold_driver. normalize_machine.
  generalize mcs_am40001280; intros tbl.
  repeat first [step_if | step_push]; congruence.
Qed.

Lemma disable_keeps_other_fields hw_reply m :
  other_fields (drv (snd (am4001280atzqw00h_disable hw_reply m))) = other_fields (drv m).
Proof.
  unfold other_fields. unfold_driver. normalize_machine.
  repeat step_if; congruence.
Qed.

Lemma run_op_keeps_other_fields hw_reply op m :
  other_fields (drv (snd (run_op hw_reply op m))) = other_fields (drv m).
Proof.
  destruct op; cbn [run_op].
  - apply prepare_keeps_other_fields.
  - apply enable_keeps_other_fields.
  - apply disable_keeps_other_fields.
  - apply unprepare_keeps_other_fields.
  - now rewrite suspend_keeps_drv.
  - now rewrite resume_keeps_drv.
Qed.

(** X6 -- No sequence of Prepare, Enable, Disable, Unprepare, Suspend and
    Resume calls, whatever the hardware answers, changes the prepared flag,
    the suspended flag, the reset GPIO descriptor or the stored brightness:
    of the driver data only the enabled flag and the bus mode flags are
    ever written by them. *)
Theorem lifecycle_calls_keep_other_fields
    (hw_reply : nat -> Z) (ops : list lifecycle_op) (m : machine) :
  other_fields (drv (snd (run_ops hw_reply ops m))) = other_fields (drv m).
Proof.
  revert m. induction ops as [|op ops IH]; intros m; [reflexivity|].
  rewrite run_ops_cons.
  pose proof (run_op_keeps_other_fields hw_reply op m) as Hop.
  destruct (run_op hw_reply op m) as [r m1]. cbn [snd] in Hop.
  specialize (IH m1). destruct (run_ops hw_reply ops m1) as [rs m'].
  cbn [snd] in *. congruence.
Qed.

Lemma run_op_enabled_stays hw_reply op m :
  enabled (drv m) = true ->
  enabled (drv (snd (run_op hw_reply op m))) = true /\
  (op = Enable \/ op = Disable -> fst (run_op hw_reply op m) = 1).
Proof.
  intros Hen. destruct op; cbn [run_op].
  - rewrite prepare_keeps_drv. split; [assumption | intros [H|H]; discriminate].
  - unfold am4001280atzqw00h_enable. rewrite enable_refused by assumption. auto.
  - unfold_driver. normalize_machine. rewrite Hen. normalize_machine. auto.
  - rewrite unprepare_keeps_enabled. split; [assumption | intros [H|H]; discriminate].
  - rewrite suspend_keeps_drv. split; [assumption | intros [H|H]; discriminate].
  - rewrite resume_keeps_drv. split; [assumption | intros [H|H]; discriminate].
Qed.

(** X7 -- Once the enabled flag is set, no sequence of lifecycle calls
    clears it, whatever the hardware answers: every Enable and every
    Disable of the sequence returns 1 at its guard. *)
Theorem enabled_flag_is_never_cleared
    (hw_reply : nat -> Z) (ops : list lifecycle_op) (m : machine) :
  enabled (drv m) = true ->
  enabled (drv (snd (run_ops hw_reply ops m))) = true /\
  forall i op,
    nth_error ops i = Some op ->
    op = Enable \/ op = Disable ->
    nth_error (fst (run_ops hw_reply ops m)) i = Some 1.
Proof.
  revert m. induction ops as [|op ops IH]; intros m Hen.
  - split; [assumption|]. intros [|i] op' H; discriminate.
  - rewrite run_ops_cons.
    destruct (run_op_enabled_stays hw_reply op m Hen) as [Hkeep Hret].
    destruct (run_op hw_reply op m) as [r m1]. cbn [fst snd] in *.
    destruct (IH m1 Hkeep) as [Hend Hrets].
    destruct (run_ops hw_reply ops m1) as [rs m']. cbn [fst snd] in *.
    split; [assumption|].
    intros [|i] op' Hnth Hkind; cbn [nth_error] in *.
    + inversion Hnth; subst op'. now rewrite (Hret Hkind).
    + eapply Hrets; eassumption.
Qed.

Lemma enabled_flag_is_never_cleared_witness :
  enabled (drv (snd (run_ops all_succeed [Disable; Unprepare; Enable] enabled_panel))) = true /\
  forall i op,
    nth_error [Disable; Unprepare; Enable] i = Some op ->
    op = Enable \/ op = Disable ->
    nth_error (fst (run_ops all_succeed [Disable; Unprepare; Enable] enabled_panel)) i
      = Some 1.
Proof.
  apply (enabled_flag_is_never_cleared all_succeed [Disable; Unprepare; Enable] enabled_panel).
  vm_compute. reflexivity.
Defined.

(** ** Prepare and Unprepare, continued *)

Ltac compute_issued :=
  rewrite <- ?app_assoc in *; cbn [app] in *;
  unfold issued; cbn [trace]; rewrite <- ?app_assoc;
  first [ rewrite skipn_all | rewrite skipn_app, skipn_all, Nat.sub_diag ];
  cbn [app skipn].

Ltac solve_off_bus :=
  unfold off_bus; repeat (constructor; [reflexivity|]); constructor.

(** X8 -- Prepare changes nothing in the driver data and never uses the
    DSI bus.  It returns 0 exactly when the prepared flag was clear and the
    regulators came up; then it has released the reset GPIO (level 0) if the
    panel has one, and has not touched any GPIO if it has none.  When it
    returns anything else it has made no call after the regulator call. *)
Theorem prepare_outcome (hw_reply : nat -> Z) (m : machine) :
  let r := fst (am4001280atzqw00h_prepare hw_reply m) in
  let m' := snd (am4001280atzqw00h_prepare hw_reply m) in
  let power := Ev regulator_bulk_enable (hw_reply (length (trace m))) in
  drv m' = drv m /\
  off_bus (issued m m') /\
  (r = 0 <-> prepared (drv m) = false /\ 0 <= hw_reply (length (trace m))) /\
  ((r = 0 /\
    gpio_levels (issued m m') = (if reset_pin (drv m) then [0] else []) /\
    exists rest, issued m m' = power :: Ev (usleep_range 10000 12000) 0 :: rest) \/
   (r = 1 /\ prepared (drv m) = true /\ issued m m' = []) \/
   (r < 0 /\ r = hw_reply (length (trace m)) /\ issued m m' = [power])).
Proof.
  cbv zeta. unfold_driver. normalize_machine.
  destruct (prepared (drv m)) eqn:Hp; normalize_machine;
    [| destruct (hw_reply (length (trace m)) <? 0) eqn:Hpow; normalize_machine;
       [| destruct (reset_pin (drv m)) eqn:Hpin; normalize_machine ] ];
    zify_tests; compute_issued;
    (split; [reflexivity|]); (split; [solve_off_bus|]);
    (split; [intuition (try lia; try discriminate)|]).
  - right; left. auto.
  - right; right. auto.
  - left. split; [reflexivity|]. split; [reflexivity|]. eexists; reflexivity.
  - left. split; [reflexivity|]. split; [reflexivity|]. eexists; reflexivity.
Qed.

(** X9 -- Unprepare never uses the DSI bus and leaves every field of the
    driver data as it was.  When it passes its guard (prepared flag clear)
    it pulses the reset GPIO (level 1, then 0) if the panel has one,
    touches no GPIO if it has none, and its last call is the regulator
    disable, whose negative result it returns; the reset pulse has then
    happened even if the regulators could not be disabled.  At its guard it
    returns 1 and calls nothing. *)
Theorem unprepare_outcome (hw_reply : nat -> Z) (m : machine) :
  let r := fst (am4001280atzqw00h_unprepare hw_reply m) in
  let m' := snd (am4001280atzqw00h_unprepare hw_reply m) in
  drv m' = drv m /\
  off_bus (issued m m') /\
  ((r = 1 /\ prepared (drv m) = true /\ issued m m' = []) \/
   (prepared (drv m) = false /\
    gpio_levels (issued m m') = (if reset_pin (drv m) then [1; 0] else []) /\
    exists pre power,
      issued m m' = pre ++ [Ev regulator_bulk_disable power] /\
      r = Z.min 0 power)).
Proof.
  cbv zeta. unfold_driver. normalize_machine.
  destruct (prepared (drv m)) eqn:Hp; normalize_machine;
    [| destruct (reset_pin (drv m)) eqn:Hpin; normalize_machine;
       match goal with
       | |- context [if ?b then _ else _] => destruct b eqn:Hpow
       end; normalize_machine ];
    zify_tests; compute_issued;
    (split; [destruct m as [[] ? ?]; unfold set_prepared; cbn in *; congruence|]);
    (split; [solve_off_bus|]).
  - left. auto.
  - right. split; [reflexivity|]. split; [reflexivity|].
    eexists [_; _; _], _. split; [reflexivity | lia].
  - right. split; [reflexivity|]. split; [reflexivity|].
    eexists [_; _; _], _. split; [reflexivity | lia].
  - right. split; [reflexivity|]. split; [reflexivity|].
    eexists [], _. split; [reflexivity | lia].
  - right. split; [reflexivity|]. split; [reflexivity|].
    eexists [], _. split; [reflexivity | lia].
Qed.

(** ** Disable, continued *)

(** X10 -- A Disable that passes its guard and whose backlight call
    succeeds leaves the bus mode by the result of the display-off command:
    if display-off fails, Disable returns that error with low-power mode
    switched off; if display-off succeeds, low-power mode is on when Disable
    returns, whether entering sleep succeeded or failed. *)
Theorem disable_bus_mode_on_return (hw_reply : nat -> Z) (m : machine) :
  enabled (drv m) = false ->
  0 <= hw_reply (length (trace m)) ->
  let r := fst (am4001280atzqw00h_disable hw_reply m) in
  let m' := snd (am4001280atzqw00h_disable hw_reply m) in
  let display_off := hw_reply (2 + length (trace m))%nat in
  low_power (drv m') = negb (display_off <? 0) /\
  (display_off < 0 -> r = display_off).
Proof.
  intros Hen Hbl. cbv zeta. unfold low_power. unfold_driver. normalize_machine.
  rewrite Hen. apply Z.ltb_ge in Hbl. rewrite Hbl. normalize_machine.
  rewrite !length_app; cbn [length]; rewrite !Nat.add_1_r. cbn [plus].
  destruct (hw_reply (S (S (length (trace m)))) <? 0) eqn:Hoff; normalize_machine.
  - split; [apply lpm_after_clear | reflexivity].
  - repeat step_if; (split; [apply lpm_after_set | intros; lia]).
Qed.

Lemma disable_bus_mode_on_return_witness :
  low_power (drv (snd (am4001280atzqw00h_disable (fails_at 2 (-5)) (probed true))))
    = false /\
  fst (am4001280atzqw00h_disable (fails_at 2 (-5)) (probed true)) = -5.
Proof.
  destruct (disable_bus_mode_on_return (fails_at 2 (-5)) (probed true))
    as [Hmode Hret].
  - reflexivity.
  - vm_compute. discriminate.
  - split; [exact Hmode | apply Hret; reflexivity].
Defined.

(** X11 -- The backlight step of Disable, with the kernel's inline
    [backlight_disable] expanded into the call of the driver's own
    [update_status] that it makes.  For a Disable that passes its guard:
    with the prepared flag clear the step sends nothing, logs that the
    panel is not prepared and cannot fail, so Disable goes on to the settle
    delay and display-off; with the prepared flag set the first thing on
    the bus is a set-display-brightness command carrying the stored
    brightness (the backlight is not switched off), and if that command
    fails Disable returns its error having sent nothing else and changed
    nothing in the driver data, mode flags included. *)
Theorem disable_backlight_step (hw_reply : nat -> Z) (m : machine) :
  enabled (drv m) = false ->
  let r := fst (am4001280atzqw00h_disable_inlined hw_reply m) in
  let m' := snd (am4001280atzqw00h_disable_inlined hw_reply m) in
  let base := length (trace m) in
  let resend :=
    Ev (mipi_dsi_dcs_set_display_brightness (brightness (drv m))) (hw_reply base) in
  (prepared (drv m) = false ->
   In "Tried to update backlight status despite not being prepared."%string (dmesg m') /\
   ~ In "Failed to disable backlight"%string (skipn (length (dmesg m)) (dmesg m')) /\
   exists rest,
     issued m m' =
       Ev (usleep_range 10000 12000) 0
       :: Ev mipi_dsi_dcs_set_display_off (hw_reply (S base)) :: rest) /\
  (prepared (drv m) = true ->
   exists rest, issued m m' = resend :: rest) /\
  (prepared (drv m) = true -> hw_reply base < 0 ->
   r = hw_reply base /\ drv m' = drv m /\ issued m m' = [resend]).
Proof.
  intros Hen. cbv zeta.
  unfold am4001280atzqw00h_disable_inlined, backlight_disable_inline.
  unfold_driver. normalize_machine. rewrite Hen. normalize_machine.
  destruct (prepared (drv m)) eqn:Hp; normalize_machine;
    repeat step_if;
    rewrite ?length_app in *; cbn [length] in *; rewrite ?Nat.add_1_r in *;
    zify_tests;
    (split;
     [ intros Hc;
       first
         [ discriminate Hc
         | split;
           [ cbn [dmesg]; rewrite <- ?app_assoc; apply in_or_app; right; cbn; auto 10
           | split;
             [ cbn [dmesg]; rewrite <- ?app_assoc;
               rewrite skipn_app, skipn_all, Nat.sub_diag; cbn; intuition discriminate
             | eexists; compute_issued; reflexivity ] ] ]
     | split;
       [ intros Hc;
         first [ discriminate Hc | eexists; compute_issued; reflexivity ]
       | intros Hc Hneg;
         first
           [ discriminate Hc
           | exfalso; lia
           | split; [reflexivity|]; split; [reflexivity|];
             compute_issued; reflexivity ] ] ]).
Qed.

Lemma disable_backlight_step_witness :
  fst (am4001280atzqw00h_disable_inlined (fails_at 0 (-5)) prepared_panel) = -5 /\
  drv (snd (am4001280atzqw00h_disable_inlined (fails_at 0 (-5)) prepared_panel))
    = drv prepared_panel /\
  issued prepared_panel
         (snd (am4001280atzqw00h_disable_inlined (fails_at 0 (-5)) prepared_panel))
    = [Ev (mipi_dsi_dcs_set_display_brightness 200) (-5)].
Proof.
  destruct (disable_backlight_step (fails_at 0 (-5)) prepared_panel eq_refl)
    as (_ & _ & Hfail).
  apply Hfail; reflexivity.
Defined.

(** ** The backlight update *)

(** X13 -- The backlight update never changes the driver data and returns
    0 or the negative result of its one bus command.  With the prepared
    flag clear it calls nothing; with the flag set its only call is one
    set-display-brightness command carrying the brightness stored in the
    backlight properties. *)
Theorem backlight_update_status_outcome (hw_reply : nat -> Z) (m : machine) :
  let r := fst (am4001280atzqw00h_backlight_update_status hw_reply m) in
  let m' := snd (am4001280atzqw00h_backlight_update_status hw_reply m) in
  drv m' = drv m /\
  r = (if prepared (drv m) then Z.min 0 (hw_reply (length (trace m))) else 0) /\
  issued m m' =
    (if prepared (drv m)
     then [Ev (mipi_dsi_dcs_set_display_brightness (brightness (drv m)))
              (hw_reply (length (trace m)))]
     else []).
Proof.
  cbv zeta. unfold_driver. normalize_machine.
  destruct (prepared (drv m)); normalize_machine;
    [ destruct (hw_reply (length (trace m)) <? 0) eqn:Hset; normalize_machine |];
    zify_tests; compute_issued; (split; [reflexivity|]);
    (split; [lia | reflexivity]).
Qed.

(** ** The wait, continued *)

Lemma sleep_within_budget start_ktime min_ms now :
  0 <= min_ms ->
  start_ktime <= now < start_ktime + min_ms * NSEC_PER_MSEC ->
  0 <= u32 (Z.quot (start_ktime + min_ms * NSEC_PER_MSEC - now) NSEC_PER_MSEC + 1)
    <= min_ms + 1.
Proof.
  unfold NSEC_PER_MSEC, u32. intros Hms Hnow.
  rewrite Z.quot_div_nonneg by lia.
  assert (Hq : 0 <= (start_ktime + min_ms * 1000000 - now) / 1000000 <= min_ms).
  { split; [apply Z.div_pos; lia|].
    apply Z.div_le_upper_bound; lia. }
  split; [apply Z.mod_pos_bound; lia|].
  etransitivity; [apply Z.mod_le; lia | lia].
Qed.

(** X12 -- When the reference time is not in the future, the wait never
    sleeps longer than [min_ms + 1] milliseconds: for an [unsigned int]
    [min_ms], a non-negative start time, a deadline that does not overflow
    [ktime_t] and a clock reading at or after the start time, every [msleep]
    the wait calls has an argument between 0 and [min_ms + 1]. *)
Theorem wait_sleep_is_bounded
    (hw_reply : nat -> Z) (m : machine) (start_ktime min_ms msecs : Z) :
  0 <= min_ms < 2 ^ 32 ->
  0 <= start_ktime ->
  start_ktime + min_ms * NSEC_PER_MSEC < 2 ^ 63 ->
  start_ktime <= hw_reply (length (trace m)) < 2 ^ 63 ->
  In (msleep msecs)
     (map ev_call
        (issued m (snd (am4001280atzqw00h_wait hw_reply start_ktime min_ms m)))) ->
  0 <= msecs <= min_ms + 1.
Proof.
  intros Hms Hstart Hsum Hnow. unfold_driver.
  rewrite deadline_exact by assumption. unfold ktime_before, ktime_to_ms.
  normalize_machine.
  destruct (min_ms =? 0) eqn:Ezero; normalize_machine.
  { compute_issued. intros []. }
  destruct (hw_reply (length (trace m ++ [Ev ktime_get (hw_reply (length (trace m)))])) <? 0)
    eqn:Eenter; normalize_machine.
  { compute_issued. cbn. intros [H | [H | []]]; discriminate. }
  destruct (hw_reply (length (trace m)) <? start_ktime + min_ms * NSEC_PER_MSEC)
    eqn:Elate; normalize_machine;
    match goal with
    | |- context [if ?b then _ else _] => destruct b
    end; normalize_machine; zify_tests; compute_issued; cbn;
    intros Hin; repeat (destruct Hin as [Hin | Hin]; try discriminate);
    try contradiction;
    inversion Hin; subst msecs;
    rewrite remainder_exact by lia;
    apply sleep_within_budget; lia.
Qed.

Lemma wait_sleep_is_bounded_witness : 0 <= 41 <= 50 + 1.
Proof.
  apply (wait_sleep_is_bounded (clock_at 10000000) (probed true) 0 50 41).
  - lia.
  - lia.
  - vm_compute. reflexivity.
  - vm_compute. split; discriminate || reflexivity.
  - vm_compute. do 2 right. left. reflexivity.
Defined.

(** ** Shutdown *)

Ltac unfold_shutdown :=
  unfold am4001280atzqw00h_shutdown; unfold_driver; normalize_machine.

(** X14 -- With the prepared flag clear, shutdown always ends by disabling
    the regulators, whatever Disable did before and whatever it returned:
    the last call is [regulator_bulk_disable], and the reset GPIO, if the
    panel has one, was pulsed (level 1, then 0) and not used otherwise. *)
Theorem shutdown_ends_with_power_off (hw_reply : nat -> Z) (m : machine) :
  prepared (drv m) = false ->
  let m' := snd (am4001280atzqw00h_shutdown hw_reply m) in
  (exists pre power, issued m m' = pre ++ [Ev regulator_bulk_disable power]) /\
  gpio_levels (issued m m') = (if reset_pin (drv m) then [1; 0] else []).
Proof.
  intros Hp. cbv zeta. unfold_shutdown.
  repeat (first [ rewrite Hp; normalize_machine | step_if ]);
    compute_issued;
    (split; [| reflexivity]);
    match goal with
    | |- exists pre power, ?l = _ =>
        exists (removelast l); eexists; cbn [removelast]; reflexivity
    end.
Qed.

Lemma shutdown_ends_with_power_off_witness :
  (exists pre power,
      issued enabled_panel (snd (am4001280atzqw00h_shutdown all_succeed enabled_panel))
        = pre ++ [Ev regulator_bulk_disable power]) /\
  gpio_levels
    (issued enabled_panel (snd (am4001280atzqw00h_shutdown all_succeed enabled_panel)))
    = [1; 0].
Proof.
  apply (shutdown_ends_with_power_off all_succeed enabled_panel).
  vm_compute. reflexivity.
Defined.

(** X15 -- With the enabled flag set, shutdown puts nothing on the DSI bus:
    its Disable is refused at the guard, so neither display-off nor
    enter-sleep is sent, and the enabled flag is still set afterwards. *)
Theorem shutdown_of_enabled_panel_stays_off_bus (hw_reply : nat -> Z) (m : machine) :
  enabled (drv m) = true ->
  let m' := snd (am4001280atzqw00h_shutdown hw_reply m) in
  off_bus (issued m m') /\ enabled (drv m') = true.
Proof.
  intros Hen. cbv zeta. unfold_shutdown. rewrite Hen. normalize_machine.
  repeat step_if; compute_issued; (split; [solve_off_bus | assumption]).
Qed.

Lemma shutdown_of_enabled_panel_stays_off_bus_witness :
  off_bus (issued enabled_panel
             (snd (am4001280atzqw00h_shutdown all_succeed enabled_panel))) /\
  enabled (drv (snd (am4001280atzqw00h_shutdown all_succeed enabled_panel))) = true.
Proof.
  apply (shutdown_of_enabled_panel_stays_off_bus all_succeed enabled_panel).
  vm_compute. reflexivity.
Defined.

(** ** Reading the brightness back *)

Lemma land_low_byte z : Z.land z 0xff = z mod 256.
Proof. change 0xff with (Z.ones 8). rewrite Z.land_ones by lia. reflexivity. Qed.

(** X16 -- The brightness readback, by case.  With the prepared flag clear
    it returns 0 without asking the bus and changes nothing.  With the flag
    set it asks the bus once; a negative result is returned as it is and
    nothing is stored; otherwise the 16-bit value read is stored unmasked as
    the backlight brightness, and what is returned is its low byte, a value
    between 0 and 255.  The three lifecycle flags are never changed. *)
Theorem get_backlight_brightness_outcome
    (bus : brightness_reply) (d : panel_driver_data) :
  let rb := am4001280atzqw00h_get_backlight_brightness bus d in
  lifecycle (rb_drv rb) = lifecycle d /\
  ((prepared d = false /\ rb_ret rb = 0 /\ rb_drv rb = d /\ rb_bus_reads rb = 0%nat) \/
   (prepared d = true /\ rd_ret bus < 0 /\
    rb_ret rb = rd_ret bus /\ rb_drv rb = d /\ rb_bus_reads rb = 1%nat) \/
   (prepared d = true /\ 0 <= rd_ret bus /\
    brightness (rb_drv rb) = rd_value bus mod 2 ^ 16 /\
    rb_ret rb = brightness (rb_drv rb) mod 256 /\
    0 <= rb_ret rb <= 255 /\
    rb_bus_reads rb = 1%nat)).
Proof.
  cbv zeta. unfold am4001280atzqw00h_get_backlight_brightness.
  destruct (prepared d) eqn:Hp; cbn [negb].
  - destruct (rd_ret bus <? 0) eqn:Hret; zify_tests;
      cbn [rb_ret rb_drv rb_bus_reads]; (split; [reflexivity|]).
    + right; left. auto.
    + right; right. cbn [brightness set_brightness_prop].
      rewrite land_low_byte. unfold u16.
      pose proof (Z.mod_pos_bound (rd_value bus mod 2 ^ 16) 256).
      repeat split; auto; lia.
  - cbn [rb_ret rb_drv rb_bus_reads]. split; [reflexivity|]. left. auto.
Qed.

(** ** Probe *)

Ltac probe_cases env :=
  destruct env as [has_data kz [vret vval] [lret lval] gpio bl kc rbg padd att];
  unfold Setup.am4001280atzqw00h_probe;
  cbn [Setup.of_match_has_data Setup.kzalloc_ok Setup.video_mode_read
       Setup.dsi_lanes_read Setup.reset_gpio Setup.backlight_error
       Setup.kcalloc_ok Setup.regulator_bulk_get Setup.panel_add
       Setup.dsi_attach fst snd];
  destruct (Setup.video_mode_flags (vret, vval)
              (Z.lor MIPI_DSI_MODE_VIDEO_HSE MIPI_DSI_MODE_VIDEO)) as [flags log];
  destruct has_data; cbn [negb];
  [ destruct kz; cbn [negb];
    [ destruct (lret <? 0) eqn:Hlanes;
      [ | destruct gpio as [gerr | | ];
          [ | destruct bl as [berr|];
              [ | destruct kc; cbn [negb];
                  [ destruct (padd <? 0) eqn:Hadd;
                    [ | destruct (att <? 0) eqn:Hatt ] | ] ]
            | destruct bl as [berr|];
              [ | destruct kc; cbn [negb];
                  [ destruct (padd <? 0) eqn:Hadd;
                    [ | destruct (att <? 0) eqn:Hatt ] | ] ] ] ]
    | ]
  | ];
  zify_tests;
  cbn [Setup.pr_ret Setup.pr_dev Setup.pr_calls Setup.pr_dmesg].

(** X17 -- On a kernel whose error pointers carry an errno, probe returns 0
    exactly when the match data, both allocations, the "dsi-lanes"
    property, the GPIO lookup, the backlight registration, the panel
    registration and the DSI attach all succeeded; otherwise it returns a
    negative code.  It hands out the driver data exactly when it returns 0.
    Neither the "video-mode" property nor the result of the regulator
    lookup can make probe fail. *)
Theorem probe_succeeds_iff_every_step_does (env : Setup.probe_env) :
  Setup.env_well_formed env ->
  let r := Setup.am4001280atzqw00h_probe env in
  (Setup.pr_ret r = 0 <-> Setup.probe_passes env) /\
  Setup.pr_ret r <= 0 /\
  (Setup.pr_ret r = 0 <-> Setup.pr_dev r <> None).
Proof.
  intros [Hgpio Hbl]. cbv zeta. unfold Setup.probe_passes.
  probe_cases env;
    cbn [Setup.reset_gpio Setup.backlight_error Setup.of_match_has_data
         Setup.kzalloc_ok Setup.dsi_lanes_read Setup.kcalloc_ok
         Setup.panel_add Setup.dsi_attach fst snd] in *;
    unfold Setup.ENOMEM, Setup.ENODEV;
    try (pose proof (Hgpio _ eq_refl) as Hg; unfold Setup.is_errno in Hg);
    try (pose proof (Hbl _ eq_refl) as Hb; unfold Setup.is_errno in Hb);
    (split; [split; [intros Hz; try lia | intros (? & ? & ? & Hnog & ? & ? & ? & ?);
                                          try discriminate; try lia;
                                          try (exfalso; eapply Hnog; reflexivity)] |]);
    try (split; [lia|]; split; [intros; try lia; discriminate | intros Hsome; try reflexivity; congruence]).
  all: repeat split; auto; try lia; try discriminate.
Qed.

Lemma probe_succeeds_iff_every_step_does_witness :
  (Setup.pr_ret (Setup.am4001280atzqw00h_probe Setup.plain_env) = 0 <->
   Setup.probe_passes Setup.plain_env) /\
  Setup.pr_ret (Setup.am4001280atzqw00h_probe Setup.plain_env) <= 0 /\
  (Setup.pr_ret (Setup.am4001280atzqw00h_probe Setup.plain_env) = 0 <->
   Setup.pr_dev (Setup.am4001280atzqw00h_probe Setup.plain_env) <> None).
Proof.
  apply (probe_succeeds_iff_every_step_does Setup.plain_env).
  split; intros e He; discriminate He.
Defined.

Lemma video_mode_flags_values read :
  let flags := fst (Setup.video_mode_flags read
                      (Z.lor MIPI_DSI_MODE_VIDEO_HSE MIPI_DSI_MODE_VIDEO)) in
  (flags = 19 /\ fst read = 0 /\ u32 (snd read) = 0) \/
  (flags = 21 /\ fst read = 0 /\ u32 (snd read) = 2) \/
  (flags = 17 /\ ~ (fst read = 0 /\ (u32 (snd read) = 0 \/ u32 (snd read) = 2))).
Proof.
  cbv zeta. unfold Setup.video_mode_flags.
  destruct (fst read =? 0) eqn:Hret; [| zify_tests; right; right; split; [reflexivity | tauto]].
  destruct (u32 (snd read) =? 0) eqn:H0; [zify_tests; left; auto|].
  destruct (u32 (snd read) =? 1) eqn:H1; [zify_tests; right; right; split; [reflexivity | lia]|].
  destruct (u32 (snd read) =? 2) eqn:H2; zify_tests;
    [right; left; auto | right; right; split; [reflexivity | lia]].
Qed.

(** Settles [z <> 0 <-> P] for a closed [z], from what is known of [P]. *)
Ltac solve_flag_iff :=
  split;
  [ intros Hne; first [ exfalso; apply Hne; reflexivity | tauto ]
  | intros [Ha Hb];
    first [ intros Hz; vm_compute in Hz; discriminate Hz
          | exfalso; first [ tauto | congruence ] ] ].

(** X18 -- The driver data a successful probe hands out: the prepared,
    enabled and suspended flags are clear, the brightness is 200, the pixel
    format is RGB888, the reset descriptor is present exactly when the
    device tree named one, and the bus mode has video mode with HSE and no
    low-power mode; burst mode is selected exactly when "video-mode" was
    read as 0, sync-pulse mode exactly when it was read as 2. *)
Theorem probe_success_state (env : Setup.probe_env) (dev : Setup.probed_device) :
  Setup.pr_dev (Setup.am4001280atzqw00h_probe env) = Some dev ->
  let flags := mode_flags (Setup.pd_drv dev) in
  let video_mode := Setup.video_mode_read env in
  lifecycle (Setup.pd_drv dev) = (false, false, false) /\
  brightness (Setup.pd_drv dev) = 200 /\
  reset_pin (Setup.pd_drv dev) = Setup.has_reset_gpio env /\
  Setup.pd_format dev = Setup.MIPI_DSI_FMT_RGB888 /\
  Setup.pd_lanes dev = u32 (snd (Setup.dsi_lanes_read env)) /\
  low_power (Setup.pd_drv dev) = false /\
  Z.land flags MIPI_DSI_MODE_VIDEO = MIPI_DSI_MODE_VIDEO /\
  Z.land flags MIPI_DSI_MODE_VIDEO_HSE = MIPI_DSI_MODE_VIDEO_HSE /\
  (Z.land flags Setup.MIPI_DSI_MODE_VIDEO_BURST <> 0 <->
   fst video_mode = 0 /\ u32 (snd video_mode) = 0) /\
  (Z.land flags Setup.MIPI_DSI_MODE_VIDEO_SYNC_PULSE <> 0 <->
   fst video_mode = 0 /\ u32 (snd video_mode) = 2).
Proof.
  cbv zeta. unfold Setup.has_reset_gpio, low_power.
  pose proof (video_mode_flags_values (Setup.video_mode_read env)) as Hflags.
  cbv zeta in Hflags. revert Hflags.
  probe_cases env; intros Hflags Hdev; try discriminate Hdev;
    inversion Hdev; subst dev;
    cbn [Setup.pd_drv Setup.pd_format Setup.pd_lanes Setup.video_mode_read
         Setup.dsi_lanes_read Setup.reset_gpio
         lifecycle prepared enabled suspended brightness reset_pin mode_flags fst snd] in *;
    (destruct Hflags as [(-> & Hr & Hv) | [(-> & Hr & Hv) | (-> & Hnot)]]);
    repeat (split; [reflexivity|]);
    split; solve_flag_iff.
Qed.

Lemma probe_success_state_witness :
  lifecycle (Setup.pd_drv Setup.plain_device) = (false, false, false) /\
  brightness (Setup.pd_drv Setup.plain_device) = 200 /\
  reset_pin (Setup.pd_drv Setup.plain_device) = Setup.has_reset_gpio Setup.plain_env /\
  Setup.pd_format Setup.plain_device = Setup.MIPI_DSI_FMT_RGB888 /\
  Setup.pd_lanes Setup.plain_device = u32 (snd (Setup.dsi_lanes_read Setup.plain_env)) /\
  low_power (Setup.pd_drv Setup.plain_device) = false /\
  Z.land (mode_flags (Setup.pd_drv Setup.plain_device)) MIPI_DSI_MODE_VIDEO
    = MIPI_DSI_MODE_VIDEO /\
  Z.land (mode_flags (Setup.pd_drv Setup.plain_device)) MIPI_DSI_MODE_VIDEO_HSE
    = MIPI_DSI_MODE_VIDEO_HSE /\
  (Z.land (mode_flags (Setup.pd_drv Setup.plain_device)) Setup.MIPI_DSI_MODE_VIDEO_BURST
     <> 0 <->
   fst (Setup.video_mode_read Setup.plain_env) = 0 /\
   u32 (snd (Setup.video_mode_read Setup.plain_env)) = 0) /\
  (Z.land (mode_flags (Setup.pd_drv Setup.plain_device))
          Setup.MIPI_DSI_MODE_VIDEO_SYNC_PULSE <> 0 <->
   fst (Setup.video_mode_read Setup.plain_env) = 0 /\
   u32 (snd (Setup.video_mode_read Setup.plain_env)) = 2).
Proof.
  apply (probe_success_state Setup.plain_env Setup.plain_device).
  vm_compute. reflexivity.
Defined.

(** X19 -- Probe drives no GPIO before it has looked up the reset GPIO
    without error, and on every path that got that far it has driven the
    reset line exactly once, to level 1, with the descriptor it found (or
    with [NULL] when the device tree names none): a panel that probe hands
    out is held in reset. *)
Theorem probe_asserts_reset_once (env : Setup.probe_env) :
  let r := Setup.am4001280atzqw00h_probe env in
  Setup.gpio_calls (Setup.pr_calls r) =
    (if existsb (fun c => match c with
                          | Setup.devm_backlight_device_register _ _ => true
                          | _ => false
                          end) (Setup.pr_calls r)
     then [Setup.gpiod_set_value_cansleep (Setup.has_reset_gpio env) 1]
     else []) /\
  (Setup.pr_dev r <> None ->
   Setup.gpio_calls (Setup.pr_calls r) =
     [Setup.gpiod_set_value_cansleep (Setup.has_reset_gpio env) 1]).
Proof.
  cbv zeta. unfold Setup.has_reset_gpio.
  probe_cases env; cbn [Setup.reset_gpio];
    (split; [reflexivity | intros Hdev; try reflexivity; congruence]).
Qed.

(** X20 -- Probe removes the panel again exactly when it had added it and
    the DSI attach then failed; the removal is then its last call.  It
    attaches only after the panel was added without error, so no failing
    probe leaves a registered panel behind. *)
Theorem probe_unregisters_on_attach_failure (env : Setup.probe_env) :
  let r := Setup.am4001280atzqw00h_probe env in
  (In Setup.drm_panel_remove (Setup.pr_calls r) <->
   In Setup.mipi_dsi_attach (Setup.pr_calls r) /\ Setup.dsi_attach env < 0) /\
  (In Setup.drm_panel_remove (Setup.pr_calls r) ->
   exists pre, Setup.pr_calls r = pre ++ [Setup.drm_panel_remove] /\
               Setup.pr_ret r = Setup.dsi_attach env) /\
  (In Setup.mipi_dsi_attach (Setup.pr_calls r) ->
   In Setup.drm_panel_add (Setup.pr_calls r) /\ 0 <= Setup.panel_add env).
Proof.
  cbv zeta.
  probe_cases env; cbn [Setup.dsi_attach Setup.panel_add app In];
    (split; [split; [intros Hin | intros [Hin Hneg]] |
             split; [intros Hin | intros Hin]]);
    repeat (destruct Hin as [Hin | Hin]; try discriminate Hin);
    try contradiction; try lia;
    try (split; [tauto | assumption]);
    try tauto;
    match goal with
    | |- exists pre, ?l = _ /\ _ => exists (removelast l); split; reflexivity
    end.
Qed.

(** X21 -- A "video-mode" property with a value other than 0, 1 or 2 does
    not stop probe: apart from one more line in the log, probe returns the
    same value, makes the same calls and hands out the same device as with
    the value 1 (non-burst mode with sync events). *)
Theorem probe_invalid_video_mode_is_not_fatal
    (has_data kz : bool) (value : Z) (lanes : Z * Z) (gpio : Setup.gpiod_lookup)
    (bl : option Z) (kc : bool) (rbg padd att : Z) :
  u32 value <> 0 -> u32 value <> 1 -> u32 value <> 2 ->
  let r := Setup.am4001280atzqw00h_probe
             (Setup.mk_env has_data kz (0, value) lanes gpio bl kc rbg padd att) in
  let r1 := Setup.am4001280atzqw00h_probe
              (Setup.mk_env has_data kz (0, 1) lanes gpio bl kc rbg padd att) in
  Setup.pr_ret r = Setup.pr_ret r1 /\
  Setup.pr_dev r = Setup.pr_dev r1 /\
  Setup.pr_calls r = Setup.pr_calls r1 /\
  (has_data = true -> kz = true ->
   In "Got invalid video mode during probe"%string (Setup.pr_dmesg r)).
Proof.
  intros H0 H1 H2. cbv zeta.
  unfold Setup.am4001280atzqw00h_probe.
  cbn [Setup.of_match_has_data Setup.kzalloc_ok Setup.video_mode_read
       Setup.dsi_lanes_read Setup.reset_gpio Setup.backlight_error
       Setup.kcalloc_ok Setup.regulator_bulk_get Setup.panel_add
       Setup.dsi_attach fst snd].
  unfold Setup.video_mode_flags. cbn [fst snd].
  change (0 =? 0) with true. cbn iota.
  apply Z.eqb_neq in H0, H1, H2. rewrite H0, H1, H2.
  change (u32 1 =? 0) with false. change (u32 1 =? 1) with true. cbn iota.
  destruct has_data, kz; cbn [negb];
    try (repeat split; intros; discriminate).
  destruct (fst lanes <? 0);
    [repeat split; intros; cbn; auto|].
  destruct gpio; [repeat split; intros; cbn; auto | |];
    (destruct bl; [repeat split; intros; cbn; auto|]);
    (destruct kc; cbn [negb]; [| repeat split; intros; cbn; auto]);
    (destruct (padd <? 0); [repeat split; intros; cbn; auto|]);
    (destruct (att <? 0); repeat split; intros; cbn; auto).
Qed.

Lemma probe_invalid_video_mode_is_not_fatal_witness :
  Setup.pr_ret (Setup.am4001280atzqw00h_probe
                  (Setup.mk_env true true (0, 7) (0, 2) Setup.gpiod_found None true 0 0 0))
    = 0 /\
  Setup.pr_dev (Setup.am4001280atzqw00h_probe
                  (Setup.mk_env true true (0, 7) (0, 2) Setup.gpiod_found None true 0 0 0))
    = Some Setup.plain_device /\
  In "Got invalid video mode during probe"%string
     (Setup.pr_dmesg
        (Setup.am4001280atzqw00h_probe
           (Setup.mk_env true true (0, 7) (0, 2) Setup.gpiod_found None true 0 0 0))).
Proof.
  destruct (probe_invalid_video_mode_is_not_fatal
              true true 7 (0, 2) Setup.gpiod_found None true 0 0 0)
    as (Hret & Hdev & _ & Hlog).
  - vm_compute. discriminate.
  - vm_compute. discriminate.
  - vm_compute. discriminate.
  - split; [rewrite Hret; reflexivity|].
    split; [rewrite Hdev; reflexivity|].
    apply Hlog; reflexivity.
Defined.

(** ** The display mode *)

Lemma get_modes_once duplicate_ok formats_ok c :
  let '(r, c', _) := Modes.am4001280atzqw00h_get_modes duplicate_ok formats_ok c in
  r = (if duplicate_ok then 1 else - Setup.ENOMEM) /\
  Modes.probed_modes c' =
    Modes.probed_modes c ++ (if duplicate_ok then [Modes.reported_mode] else []) /\
  (duplicate_ok = false -> c' = c).
Proof.
  unfold Modes.am4001280atzqw00h_get_modes.
  destruct duplicate_ok; cbn [negb Modes.probed_modes].
  - split; [reflexivity|]. split; [reflexivity | discriminate].
  - rewrite app_nil_r. auto.
Qed.

(** X22 -- However often [get_modes] is called on a connector and however
    its allocations go, the modes the connector already had are kept, in
    their order; behind them stands one copy of the panel's mode (400x1280,
    marked driver and preferred) for each call that could duplicate the
    mode; and each call returned 1 if it added its copy and [-ENOMEM] if it
    could not.  A failed allocation of the bus-format list never shows in
    the return value. *)
Theorem get_modes_appends_one_mode_per_success
    (allocs : list (bool * bool)) (c : Modes.drm_connector) :
  let rs := fst (Modes.get_modes_repeatedly allocs c) in
  let c' := snd (Modes.get_modes_repeatedly allocs c) in
  Modes.probed_modes c' =
    Modes.probed_modes c ++ repeat Modes.reported_mode (Modes.duplicates allocs) /\
  rs = map (fun a : bool * bool => if fst a then 1 else - Setup.ENOMEM) allocs /\
  Modes.hdisplay Modes.reported_mode = 400 /\
  Modes.vdisplay Modes.reported_mode = 1280 /\
  Modes.type Modes.reported_mode =
    Z.lor Modes.DRM_MODE_TYPE_DRIVER Modes.DRM_MODE_TYPE_PREFERRED /\
  Modes.name Modes.reported_mode = Some (400, 1280, false).
Proof.
  cbv zeta. split; [| split; [| repeat split]].
  - revert c. induction allocs as [|[dup fmt] allocs IH]; intros c.
    + cbn. now rewrite app_nil_r.
    + cbn [Modes.get_modes_repeatedly].
      pose proof (get_modes_once dup fmt c) as Hone.
      destruct (Modes.am4001280atzqw00h_get_modes dup fmt c) as [[r c1] log].
      destruct Hone as (_ & Hmodes & _).
      specialize (IH c1).
      destruct (Modes.get_modes_repeatedly allocs c1) as [rs c'].
      cbn [snd] in *. rewrite IH, Hmodes, <- app_assoc.
      unfold Modes.duplicates. cbn [filter fst].
      destruct dup; reflexivity.
  - revert c. induction allocs as [|[dup fmt] allocs IH]; intros c.
    + reflexivity.
    + cbn [Modes.get_modes_repeatedly map].
      pose proof (get_modes_once dup fmt c) as Hone.
      destruct (Modes.am4001280atzqw00h_get_modes dup fmt c) as [[r c1] log].
      destruct Hone as (Hr & _ & _).
      specialize (IH c1).
      destruct (Modes.get_modes_repeatedly allocs c1) as [rs c'].
      cbn [fst] in *. now rewrite IH, Hr.
Qed.

(** ** Who touches power and reset *)

Lemma write_events_no_power hw_reply l : forall base,
  filter is_regulator_call (write_events hw_reply base l) = [] /\
  filter is_gpio_call (write_events hw_reply base l) = [].
Proof.
  induction l as [|e l IH]; intros base; cbn; [auto | apply IH].
Qed.

Ltac solve_no_power :=
  compute_issued;
  repeat (rewrite ?filter_app;
          rewrite ?(proj1 (write_events_no_power _ _ _));
          rewrite ?(proj2 (write_events_no_power _ _ _));
          cbn [filter is_regulator_call is_gpio_call ev_call app]);
  auto.

Lemma enable_no_regulator hw_reply m :
  filter is_regulator_call
    (issued m (snd (am4001280atzqw00h_platform_enable hw_reply m))) = [].
Proof.
  unfold_driver. normalize_machine.
  generalize mcs_am40001280; intros tbl.
  repeat first [step_if | step_push_shape]; solve_no_power.
Qed.

Lemma disable_no_power hw_reply m :
  filter is_regulator_call (issued m (snd (am4001280atzqw00h_disable hw_reply m))) = [] /\
  filter is_gpio_call (issued m (snd (am4001280atzqw00h_disable hw_reply m))) = [].
Proof.
  unfold_driver. normalize_machine.
  repeat step_if; split; solve_no_power.
Qed.

Lemma suspend_no_power hw_reply m :
  filter is_regulator_call (issued m (snd (am4001280atzqw00h_suspend hw_reply m))) = [] /\
  filter is_gpio_call (issued m (snd (am4001280atzqw00h_suspend hw_reply m))) = [].
Proof.
  unfold_driver. normalize_machine.
  repeat step_if; split; solve_no_power.
Qed.

Lemma resume_no_power hw_reply m :
  filter is_regulator_call (issued m (snd (am4001280atzqw00h_resume hw_reply m))) = [] /\
  filter is_gpio_call (issued m (snd (am4001280atzqw00h_resume hw_reply m))) = [].
Proof.
  unfold_driver. normalize_machine.
  repeat step_if; split; solve_no_power.
Qed.

(** X23 -- Of the lifecycle calls only Prepare and Unprepare ever call the
    regulators: Enable, Disable, Suspend and Resume never do, whatever the
    hardware answers.  Disable, Suspend and Resume never drive the reset
    GPIO either; Enable drives it only in its rollback. *)
Theorem only_prepare_and_unprepare_switch_power
    (hw_reply : nat -> Z) (op : lifecycle_op) (m : machine) :
  let t := issued m (snd (run_op hw_reply op m)) in
  (op <> Prepare -> op <> Unprepare -> filter is_regulator_call t = []) /\
  (op = Disable \/ op = Suspend \/ op = Resume -> filter is_gpio_call t = []) /\
  (op = Enable -> fst (run_op hw_reply op m) = 0 -> filter is_gpio_call t = []).
Proof.
  cbv zeta. destruct op; cbn [run_op];
    (split; [intros Hp Hu; try congruence |
             split; [intros [H | [H | H]]; try discriminate H |
                     intros H Hzero; try discriminate H]]).
  - apply enable_no_regulator.
  - unfold am4001280atzqw00h_enable in *. revert Hzero.
    unfold_driver. normalize_machine.
    generalize mcs_am40001280; intros tbl.
    repeat first [step_if | step_push_shape]; zify_tests; intros Hzero;
      try lia; try discriminate; solve_no_power.
  - apply disable_no_power.
  - apply disable_no_power.
  - apply suspend_no_power.
  - apply suspend_no_power.
  - apply resume_no_power.
  - apply resume_no_power.
Qed.
